(** * dexter: the financial-search router and the fundamentals adapters

    A shallow embedding of

      - [src/tools/finance/fundamentals.ts]      (period mapping, the four
        statement adapters), and
      - [src/tools/finance/financial-search.ts]  (tool registry, router,
        executor and merge),

    followed by the properties the specification states about them.

    JavaScript values are an inductive type, objects are finite maps from
    property names to values, [async] functions are computations in a
    state-and-exception monad over an abstract outside world, and everything
    the two files import from elsewhere is a field of the class [Imports]. *)

From Stdlib Require Import Ascii.
From stdpp Require Import base option list strings gmap fin_maps.

Set Warnings "-register-all".

(** ** JavaScript values *)

(** A JavaScript number is an IEEE double.  The two files never compute with
    numbers: a number is only tested for truthiness ([ToBoolean]) and printed
    ([ToString]).  A number is therefore represented by these two
    observations. *)
Record number := Number { number_truthy : bool; number_text : string }.

Inductive value :=
| VUndefined
| VNull
| VBool (b : bool)
| VNum (n : number)
| VStr (s : string)
| VArr (l : list value)
| VObj (o : gmap string value).

(** A plain object ([Record<string, unknown>]): its own properties. *)
Abbreviation obj := (gmap string value).

(** The literal [10]. *)
Definition ten : number := Number true "10".

(** [ToBoolean]: what [if (v)], [!v], [v ? a : b] and [v || w] test. *)
Definition truthy (v : value) : bool :=
  match v with
  | VUndefined | VNull => false
  | VBool b => b
  | VNum n => number_truthy n
  | VStr s => negb (bool_decide (s = ""))
  | VArr _ | VObj _ => true
  end.

(** [Array.prototype.join]. *)
Fixpoint join (sep : string) (l : list string) : string :=
  match l with
  | [] => ""
  | [s] => s
  | s :: l' => s +:+ sep +:+ join sep l'
  end.

(** [ToString]: what a template literal and [String(v)] produce.  An array
    prints its elements joined by commas, [null] and [undefined] elements as
    the empty string; a plain object prints as [[object Object]]. *)
Fixpoint ToString (v : value) : string :=
  match v with
  | VUndefined => "undefined"
  | VNull => "null"
  | VBool b => if b then "true" else "false"
  | VNum n => number_text n
  | VStr s => s
  | VArr l =>
      join "," (map (fun x => match x with
                              | VUndefined | VNull => ""
                              | _ => ToString x
                              end) l)
  | VObj _ => "[object Object]"
  end.

(** [o[k] = v] on a plain object.  Assigning to [__proto__] goes to the
    accessor inherited from [Object.prototype] and creates no own property;
    every other string key creates or overwrites the own property. *)
Definition js_set (o : obj) (k : string) (v : value) : obj :=
  if decide (k = "__proto__") then o else <[k := v]> o.

(** What can be thrown: an [Error] object (with its [name] and [message]) or
    any other value. *)
Inductive thrown :=
| ErrorObject (name message : string)
| ThrownValue (v : value).

(** [new Error(message)] *)
Definition Error (message : string) : thrown := ErrorObject "Error" message.

(** The [TypeError] raised by reading property [k] of [null] or [undefined]
    (text as V8 words it). *)
Definition TypeError_read (base k : string) : thrown :=
  ErrorObject "TypeError"
    ("Cannot read properties of " +:+ base +:+ " (reading '" +:+ k +:+ "')").

(** [`${error}`]: [ToString] of a thrown value; an [Error] object prints
    through [Error.prototype.toString]. *)
Definition thrown_ToString (e : thrown) : string :=
  match e with
  | ErrorObject name message =>
      if decide (name = "") then message
      else if decide (message = "") then name
      else name +:+ ": " +:+ message
  | ThrownValue v => ToString v
  end.

(** [error instanceof Error ? error.message : String(error)] *)
Definition error_message (e : thrown) : string :=
  match e with
  | ErrorObject _ message => message
  | ThrownValue v => ToString v
  end.

(** The completion of an evaluation: a value or a thrown exception (for an
    [async] function: the promise fulfils or rejects). *)
Inductive completion (A : Type) :=
| Normal (a : A)
| Throw (e : thrown).
Arguments Normal {A} a.
Arguments Throw {A} e.

(** [v.k] for the property names read in these files ([data], [sourceUrls]),
    which neither [Object.prototype] nor the wrappers of primitives and
    arrays define: reading from [null] or [undefined] throws, reading a
    missing property gives [undefined]. *)
Definition get_property (v : value) (k : string) : completion value :=
  match v with
  | VUndefined => Throw (TypeError_read "undefined" k)
  | VNull => Throw (TypeError_read "null" k)
  | VObj o => Normal (default VUndefined (o !! k))
  | _ => Normal VUndefined
  end.

(** [Array.prototype.flatMap]: an array returned by the callback is spread
    into the result, any other value is pushed as it is. *)
Definition spread (v : value) : list value :=
  match v with
  | VArr l => l
  | _ => [v]
  end.

Definition flatMap {A} (f : A -> value) (l : list A) : list value :=
  concat (map (fun x => spread (f x)) l).

(** ** Effects

    Both files are [async] code that talks to the outside: the language model,
    the upstream HTTP API, the clock.  The outside is an abstract world [W]
    that every imported operation may read and change.  Next to the world the
    state keeps a trace, to which the model appends one event at each place
    where the source calls out, so that "no adapter is invoked" and "three
    calls are issued" are statements about the trace.

    A computation runs to completion before the next one starts.  For
    [Promise.all] this is one of the interleavings JavaScript allows: the
    calls are started in array order, the array of results is in array order
    whatever the order of completion, and no sibling is cancelled when one
    rejects. *)

Inductive Event :=
| EvLlm (query model : string)          (* callLlm(query, {model, ...}) *)
| EvInvoke (tool : string) (args : obj) (* tool.invoke(args) *)
| EvApi (path : string) (params : obj). (* callApi(path, params) *)

Record State (W : Type) := mkState { world : W; trace : list Event }.
Arguments mkState {W} world trace.
Arguments world {W} _.
Arguments trace {W} _.

Definition M (W A : Type) : Type := State W -> completion A * State W.

Section Monad.
Context {W : Type}.

Definition ret {A} (a : A) : M W A := fun st => (Normal a, st).

Definition bind {A B} (m : M W A) (k : A -> M W B) : M W B := fun st =>
  match m st with
  | (Normal a, st') => k a st'
  | (Throw e, st') => (Throw e, st')
  end.

(** [throw e] *)
Definition throw {A} (e : thrown) : M W A := fun st => (Throw e, st).

(** [try { body } catch (error) { handler }]: what the body did to the
    world before it threw stays done. *)
Definition try_catch {A} (body : M W A) (handler : thrown -> M W A) : M W A :=
  fun st =>
    match body st with
    | (Normal a, st') => (Normal a, st')
    | (Throw e, st') => handler e st'
    end.

(** A pure evaluation that may throw. *)
Definition lift_completion {A} (c : completion A) : M W A := fun st => (c, st).

(** A call into the outside world, recorded in the trace when it starts. *)
Definition call_out {A} (ev : Event) (f : W -> completion A * W) : M W A :=
  fun st =>
    let (c, w') := f (world st) in
    (c, mkState w' (trace st ++ [ev])).

(** [await Promise.all(ps)]: every promise of the array has been started,
    so every one runs, also after one has rejected; the result is the array
    of the values in array order, or the rejection of the first one (in
    array order) that rejected. *)
Fixpoint Promise_all {A} (ps : list (M W A)) : M W (list A) :=
  match ps with
  | [] => ret []
  | p :: ps' => fun st =>
      let (c, st1) := p st in
      let (cs, st2) := Promise_all ps' st1 in
      (match c, cs with
       | Normal a, Normal l => Normal (a :: l)
       | Throw e, _ => Throw e
       | Normal _, Throw e => Throw e
       end, st2)
  end.
End Monad.

#[global] Instance M_ret {W} : MRet (M W) := @ret W.
#[global] Instance M_bind {W} : MBind (M W) := fun A B k m => bind m k.

(** ** Tools *)

(** [StructuredToolInterface], as far as the router uses it. *)
Record Tool (W : Type) := mkTool {
  name : string;
  invoke : obj -> M W value;
}.
Arguments mkTool {W} name invoke.
Arguments name {W} _.
Arguments invoke {W} _ _.

(** A tool defined in a file that is not part of this development: its name
    and what invoking it does to the world. *)
Record ImportedTool (W : Type) := mkImportedTool {
  imported_name : string;
  imported_invoke : obj -> W -> completion value * W;
}.
Arguments mkImportedTool {W} imported_name imported_invoke.
Arguments imported_name {W} _.
Arguments imported_invoke {W} _ _ _.

(** [ToolCall] and [AIMessage] of [@langchain/core/messages], the fields the
    router reads. *)
Record ToolCall := mkToolCall { tc_name : string; tc_args : obj }.

Record AIMessage := mkAIMessage { tool_calls : option (list ToolCall) }.

(** The options object passed to [callLlm]. *)
Record LlmOptions (W : Type) := mkLlmOptions {
  model : string;
  systemPrompt : string;
  tools : list (Tool W);
}.
Arguments mkLlmOptions {W} model systemPrompt tools.

(** What the two files import and [src/] does not contain.  The JSON codec of
    the runtime and the schema check of the tool class are imports as well. *)
Class Imports (W : Type) := {
  (** [JSON.parse]: the parsed value, or the [SyntaxError] thrown. *)
  JSON_parse : string -> completion value;
  (** [JSON.stringify]: [None] where JavaScript returns [undefined]. *)
  JSON_stringify : value -> option string;
  (** The error [DynamicStructuredTool.invoke] throws for arguments that do
      not match the schema. *)
  ToolInputParsingException : obj -> thrown;
  (** [formatToolResult(data, sourceUrls)] of [../types.js] *)
  formatToolResult : obj -> list value -> string;
  (** [getCurrentDate()] of [../../agent/prompts.js] *)
  getCurrentDate : W -> string;
  (** [callLlm(query, options)] of [../../model/llm.js] *)
  callLlm : string -> LlmOptions W -> W -> completion AIMessage * W;
  (** [callApi(path, params)] of [./api.js]: the payload and the request URL *)
  callApi : string -> obj -> W -> completion (value * string) * W;
  (** the tools of [./prices.js], [./crypto.js], [./metrics.js],
      [./estimates.js], [./filings.js], [./news.js], [./insider_trades.js],
      [./segments.js] and [./company_facts.js] *)
  getPriceSnapshot : ImportedTool W;
  getPrices : ImportedTool W;
  getCryptoPriceSnapshot : ImportedTool W;
  getCryptoPrices : ImportedTool W;
  getCryptoTickers : ImportedTool W;
  getFinancialMetricsSnapshot : ImportedTool W;
  getFinancialMetrics : ImportedTool W;
  getAnalystEstimates : ImportedTool W;
  getFilings : ImportedTool W;
  get10KFilingItems : ImportedTool W;
  get10QFilingItems : ImportedTool W;
  get8KFilingItems : ImportedTool W;
  getNews : ImportedTool W;
  getInsiderTrades : ImportedTool W;
  getSegmentedRevenues : ImportedTool W;
  getCompanyFacts : ImportedTool W;
}.

(** [new DynamicStructuredTool({name, description, schema, func})] of
    [@langchain/core/tools]: [invoke] checks the arguments against the schema
    and hands the parsed input to [func], whose string it returns.  A schema
    is modelled by its parsing function. *)
Definition DynamicStructuredTool {W} `{!Imports W} {I : Type}
    (name : string) (schema : obj -> option I) (func : I -> M W string) : Tool W :=
  mkTool name (fun args =>
    match schema args with
    | None => throw (ToolInputParsingException args)
    | Some input => s ← func input; mret (VStr s)
    end).

(** A tool imported from another file, as the router sees it. *)
Definition imported {W} (t : ImportedTool W) : Tool W :=
  mkTool (imported_name t) (fun args st =>
    let (c, w') := imported_invoke t args (world st) in
    (c, mkState w' (trace st))).

(** ** fundamentals.ts *)

(** [z.enum(['annual', 'quarterly', 'ttm'])] *)
Inductive Period := annual | quarterly | ttm.

Definition Period_string (p : Period) : string :=
  match p with
  | annual => "annual"
  | quarterly => "quarterly"
  | ttm => "ttm"
  end.

Definition Period_of_string (s : string) : option Period :=
  if decide (s = "annual") then Some annual
  else if decide (s = "quarterly") then Some quarterly
  else if decide (s = "ttm") then Some ttm
  else None.

Record FinancialStatementsInput := mkFinancialStatementsInput {
  ticker : string;
  period : Period;
  limit : number;
}.

(** [FinancialStatementsInputSchema]: [ticker] a string, [period] one of the
    three choices, [limit] a number, [10] when it is left out. *)
Definition FinancialStatementsInputSchema (args : obj) : option FinancialStatementsInput :=
  t ← match args !! "ticker" with Some (VStr s) => Some s | _ => None end;
  p ← match args !! "period" with Some (VStr s) => Period_of_string s | _ => None end;
  l ← match args !! "limit" with
      | None | Some VUndefined => Some ten
      | Some (VNum n) => Some n
      | _ => None
      end;
  Some (mkFinancialStatementsInput t p l).

(** FMP uses different period values *)
Definition mapPeriod (period : string) : string :=
  if decide (period = "quarterly") then "quarter"
  else if decide (period = "annual") then "annual"
  else "annual". (* ttm maps to annual for FMP *)

Section Fundamentals.
Context {W : Type} `{!Imports W}.

(** [await callApi(path, params)] *)
Definition call_api (path : string) (params : obj) : M W (value * string) :=
  call_out (EvApi path params) (callApi path params).

(** [{ symbol: input.ticker, period: ..., limit: input.limit }] *)
Definition statement_params (input : FinancialStatementsInput) (periodParam : string) : obj :=
  {[ "symbol" := VStr (ticker input);
     "period" := VStr periodParam;
     "limit" := VNum (limit input) ]}.

Definition getIncomeStatements_func (input : FinancialStatementsInput) : M W string :=
  '(data, url) ← call_api "/income-statement"
                   (statement_params input (mapPeriod (Period_string (period input))));
  mret (formatToolResult {[ "income_statements" := data ]} [VStr url]).

Definition getIncomeStatements : Tool W :=
  DynamicStructuredTool "get_income_statements"
    FinancialStatementsInputSchema getIncomeStatements_func.

Definition getBalanceSheets_func (input : FinancialStatementsInput) : M W string :=
  '(data, url) ← call_api "/balance-sheet-statement"
                   (statement_params input (mapPeriod (Period_string (period input))));
  mret (formatToolResult {[ "balance_sheets" := data ]} [VStr url]).

Definition getBalanceSheets : Tool W :=
  DynamicStructuredTool "get_balance_sheets"
    FinancialStatementsInputSchema getBalanceSheets_func.

Definition getCashFlowStatements_func (input : FinancialStatementsInput) : M W string :=
  '(data, url) ← call_api "/cash-flow-statement"
                   (statement_params input (mapPeriod (Period_string (period input))));
  mret (formatToolResult {[ "cash_flow_statements" := data ]} [VStr url]).

Definition getCashFlowStatements : Tool W :=
  DynamicStructuredTool "get_cash_flow_statements"
    FinancialStatementsInputSchema getCashFlowStatements_func.

(** The three requests of the composite adapter, in the order of the array
    literal. *)
Definition all_statement_calls (input : FinancialStatementsInput) : list (M W (value * string)) :=
  let periodParam := mapPeriod (Period_string (period input)) in
  [ call_api "/income-statement" (statement_params input periodParam);
    call_api "/balance-sheet-statement" (statement_params input periodParam);
    call_api "/cash-flow-statement" (statement_params input periodParam) ].

Definition getAllFinancialStatements_func (input : FinancialStatementsInput) : M W string :=
  responses ← Promise_all (all_statement_calls input);
  match responses with
  | [income; balance; cashflow] =>
      mret (formatToolResult
              {[ "income_statements" := income.1;
                 "balance_sheets" := balance.1;
                 "cash_flow_statements" := cashflow.1 ]}
              [VStr income.2])
  | _ => throw (TypeError_read "undefined" "data")
  end.

Definition getAllFinancialStatements : Tool W :=
  DynamicStructuredTool "get_all_financial_statements"
    FinancialStatementsInputSchema getAllFinancialStatements_func.
End Fundamentals.

(** ** financial-search.ts

    The [console.log] and [console.error] calls are diagnostics and are left
    out, but for the one whose argument can throw (the preview of
    [resultStr]); so are the [description] texts of the tools. *)

Record FinancialSearchInput := mkFinancialSearchInput { query : string }.

(** [FinancialSearchInputSchema]: [query] a string. *)
Definition FinancialSearchInputSchema (args : obj) : option FinancialSearchInput :=
  match args !! "query" with
  | Some (VStr s) => Some (mkFinancialSearchInput s)
  | _ => None
  end.

(** One element of [results]; [error: null] is [None].  [sourceUrls] is
    typed by no schema: it is whatever truthy value the envelope holds, or
    the empty array. *)
Record ExecutionResult := mkExecutionResult {
  tool : string;
  args : obj;
  data : value;
  sourceUrls : value;
  error : option string;
}.

(** The double quote character, for the text of the prompt. *)
Definition dq : string := String (Ascii.ascii_of_nat 34) EmptyString.

(** [const key = ticker ? `${result.tool}_${ticker}` : result.tool], with
    [ticker] the property [result.args.ticker]. *)
Definition result_key (result : ExecutionResult) : string :=
  let ticker := default VUndefined (args result !! "ticker") in
  if truthy ticker then tool result +:+ "_" +:+ ToString ticker else tool result.

(** [results.filter((r) => r.error === null)] *)
Definition successfulResults (results : list ExecutionResult) : list ExecutionResult :=
  filter (fun r => error r = None) results.

(** [results.filter((r) => r.error !== null)] *)
Definition failedResults (results : list ExecutionResult) : list ExecutionResult :=
  filter (fun r => error r ≠ None) results.

(** [results.flatMap((r) => r.sourceUrls)] *)
Definition allUrls (results : list ExecutionResult) : list value :=
  flatMap sourceUrls results.

(** The loop: [for (const result of successfulResults) combinedData[key] =
    result.data], from the empty object. *)
Definition merge_data (successful : list ExecutionResult) : obj :=
  foldl (fun combinedData result =>
           js_set combinedData (result_key result) (data result))
        ∅ successful.

(** [{ tool: r.tool, args: r.args, error: r.error }] *)
Definition error_entry (r : ExecutionResult) : value :=
  VObj {[ "tool" := VStr (tool r);
          "args" := VObj (args r);
          "error" := match error r with Some e => VStr e | None => VNull end ]}.

(** [combinedData] as it is handed to [formatToolResult]: the merged data,
    and [_errors] when a result failed. *)
Definition combinedData (results : list ExecutionResult) : obj :=
  let merged := merge_data (successfulResults results) in
  if decide (0 < length (failedResults results))
  then js_set merged "_errors" (VArr (map error_entry (failedResults results)))
  else merged.

(** [!toolCalls || toolCalls.length === 0] *)
Definition no_tool_calls (response : AIMessage) : Prop :=
  tool_calls response = None ∨ tool_calls response = Some [].

(** The per-item error of a name that is not in the registry. *)
Definition not_found (tc : ToolCall) : ExecutionResult :=
  mkExecutionResult (tc_name tc) (tc_args tc) VNull (VArr [])
    (Some ("Tool '" +:+ tc_name tc +:+ "' not found")).


Section FinancialSearch.
Context {W : Type} `{!Imports W}.

(** All finance tools available for routing *)
Definition FINANCE_TOOLS : list (Tool W) :=
  [ imported getPriceSnapshot;
    imported getPrices;
    imported getCryptoPriceSnapshot;
    imported getCryptoPrices;
    imported getCryptoTickers;
    getIncomeStatements;
    getBalanceSheets;
    getCashFlowStatements;
    getAllFinancialStatements;
    imported getFinancialMetricsSnapshot;
    imported getFinancialMetrics;
    imported getAnalystEstimates;
    imported getFilings;
    imported get10KFilingItems;
    imported get10QFilingItems;
    imported get8KFilingItems;
    imported getNews;
    imported getInsiderTrades;
    imported getSegmentedRevenues;
    imported getCompanyFacts ].

(** [new Map(FINANCE_TOOLS.map(t => [t.name, t]))]: the entries are set in
    array order, a later tool replaces an earlier one of the same name. *)
Definition FINANCE_TOOL_MAP : gmap string (Tool W) :=
  foldl (fun m t => <[name t := t]> m) ∅ FINANCE_TOOLS.

Definition buildRouterPrompt : M W string := fun st =>
  (Normal ("You are a financial data routing assistant.
Current date: " +:+ getCurrentDate (world st) +:+ "

Given a user's natural language query about financial data, call the appropriate financial tool(s).

## Guidelines

1. **Ticker Resolution**: Convert company names to ticker symbols:
   - Apple → AAPL, Tesla → TSLA, Microsoft → MSFT, Amazon → AMZN
   - Google/Alphabet → GOOGL, Meta/Facebook → META, Nvidia → NVDA

2. **Date Inference**: Convert relative dates to YYYY-MM-DD format:
   - " +:+ dq +:+ "last year" +:+ dq +:+ " → start_date 1 year ago, end_date today
   - " +:+ dq +:+ "last quarter" +:+ dq +:+ " → start_date 3 months ago, end_date today

3. **Tool Selection**:
   - For " +:+ dq +:+ "current" +:+ dq +:+ " or " +:+ dq +:+ "latest" +:+ dq +:+ " data, use snapshot tools (get_price_snapshot, get_financial_metrics_snapshot)
   - For revenue, earnings, profitability → get_income_statements
   - For debt, assets, equity → get_balance_sheets
   - For cash flow, free cash flow → get_cash_flow_statements

4. **Efficiency**:
   - Prefer specific tools over general ones when possible

Call the appropriate tool(s) now."), st).

(** [await callLlm(input.query, { model, systemPrompt: buildRouterPrompt(),
    tools: FINANCE_TOOLS })] *)
Definition call_llm (query model : string) : M W AIMessage :=
  systemPrompt ← buildRouterPrompt;
  call_out (EvLlm query model)
           (callLlm query (mkLlmOptions model systemPrompt FINANCE_TOOLS)).

(** [typeof rawResult === 'string' ? rawResult : JSON.stringify(rawResult)] *)
Definition result_string (rawResult : value) : option string :=
  match rawResult with
  | VStr s => Some s
  | _ => JSON_stringify rawResult
  end.

(** The state in which [tool.invoke(tc.args)] starts: the invocation is on
    the trace. *)
Definition invoking (tc : ToolCall) (st : State W) : State W :=
  mkState (world st) (trace st ++ [EvInvoke (tc_name tc) (tc_args tc)]).

(** The callback mapped over [toolCalls]: one [ExecutionResult] per
    [ToolCall], whatever happens. *)
Definition executeToolCall (tc : ToolCall) : M W ExecutionResult :=
  try_catch
    (tool ← match FINANCE_TOOL_MAP !! tc_name tc with
            | None => throw (Error ("Tool '" +:+ tc_name tc +:+ "' not found"))
            | Some tool => mret tool
            end;
     rawResult ← (fun st => invoke tool (tc_args tc) (invoking tc st));
     (* [resultStr.substring(0, 300)] for the log: throws on [undefined] *)
     resultStr ← match result_string rawResult with
                 | None => throw (TypeError_read "undefined" "substring")
                 | Some s => mret s
                 end;
     parsed ← lift_completion (JSON_parse resultStr);
     parsed_data ← lift_completion (get_property parsed "data");
     parsed_sourceUrls ← lift_completion (get_property parsed "sourceUrls");
     mret (mkExecutionResult (tc_name tc) (tc_args tc) parsed_data
             (if truthy parsed_sourceUrls then parsed_sourceUrls else VArr [])
             None))
    (fun error =>
       mret (mkExecutionResult (tc_name tc) (tc_args tc) VNull (VArr [])
               (Some (error_message error)))).

(** [await Promise.all(toolCalls.map(async (tc) => ...))] *)
Definition executeToolCalls (toolCalls : list ToolCall) : M W (list ExecutionResult) :=
  Promise_all (map executeToolCall toolCalls).

(** The [func] of the [financial_search] tool. *)
Definition financial_search_func (model : string) (input : FinancialSearchInput) : M W string :=
  llm ← try_catch
          (response ← call_llm (query input) model; mret (inr response))
          (fun error =>
             mret (inl (formatToolResult
                          {[ "error" := VStr ("LLM call failed: " +:+ thrown_ToString error) ]}
                          [])));
  match llm with
  | inl early => mret early
  | inr response =>
      match tool_calls response with
      | None | Some [] =>
          mret (formatToolResult {[ "error" := VStr "No tools selected for query" ]} [])
      | Some toolCalls =>
          results ← executeToolCalls toolCalls;
          mret (formatToolResult (combinedData results) (allUrls results))
      end
  end.

Definition createFinancialSearch (model : string) : Tool W :=
  DynamicStructuredTool "financial_search"
    FinancialSearchInputSchema (financial_search_func model).
(** What every result of the executor satisfies: a result without error
    names a registered tool, a result with an error carries no data and no
    URLs. *)
Definition from_executor (r : ExecutionResult) : Prop :=
  match error r with
  | None => is_Some (FINANCE_TOOL_MAP !! tool r)
  | Some _ => data r = VNull ∧ sourceUrls r = VArr []
  end.

End FinancialSearch.

(** * A simulated environment

    An instance of [Imports] to run the model on: a JSON codec for values
    without escapes, a language model that answers what the world holds, an
    upstream API that echoes its request, and stand-ins for the imported
    tools. *)

Module Sim.

Record World := mkWorld {
  llm_reply : completion AIMessage; (* what the language model does *)
  down : list string;               (* the API paths that fail *)
  today : string;
  served : nat;                     (* requests answered so far *)
}.

Definition quote : ascii := Ascii.ascii_of_nat 34.

Definition quoted (s : string) : string := String quote (s +:+ String quote "").

Definition is_undefined (v : value) : bool :=
  match v with VUndefined => true | _ => false end.

(** The JSON text of a value; [fuel] bounds the nesting. *)
Fixpoint print (fuel : nat) (v : value) : string :=
  match fuel with
  | 0 => ""
  | S fuel =>
      match v with
      | VUndefined | VNull => "null"
      | VBool b => if b then "true" else "false"
      | VNum n => number_text n
      | VStr s => quoted s
      | VArr l => "[" +:+ join "," (map (print fuel) l) +:+ "]"
      | VObj o =>
          "{" +:+ join ","
                   (map (fun kv : string * value =>
                           quoted kv.1 +:+ ":" +:+ print fuel kv.2)
                        (filter (fun kv : string * value => is_undefined kv.2 = false)
                                (map_to_list o)))
              +:+ "}"
      end
  end.

Definition stringify (v : value) : option string :=
  if is_undefined v then None else Some (print 64 v).

(** The characters up to the closing quote, and the text after it. *)
Fixpoint read_string (s : string) : option (string * string) :=
  match s with
  | EmptyString => None
  | String c s' =>
      if Ascii.eqb c quote then Some (EmptyString, s')
      else match read_string s' with
           | Some (str, rest) => Some (String c str, rest)
           | None => None
           end
  end.

Definition is_number_char (c : ascii) : bool :=
  let n := Ascii.nat_of_ascii c in
  ((48 <=? n) && (n <=? 57)) || bool_decide (c ∈ ["-"; "+"; "."; "e"; "E"]%char).

Fixpoint read_number (s : string) : string * string :=
  match s with
  | EmptyString => (EmptyString, EmptyString)
  | String c s' =>
      if is_number_char c
      then let (num, rest) := read_number s' in (String c num, rest)
      else (EmptyString, s)
  end.

Fixpoint all_zero (s : string) : bool :=
  match s with
  | EmptyString => true
  | String c s' => bool_decide (c ∈ ["0"; "-"; "."]%char) && all_zero s'
  end.

Definition strip (p s : string) : option string :=
  if String.prefix p s
  then Some (String.substring (String.length p) (String.length s - String.length p) s)
  else None.

Fixpoint parse_value (fuel : nat) (s : string) : option (value * string) :=
  match fuel with
  | 0 => None
  | S fuel =>
      match s with
      | EmptyString => None
      | String c s' =>
          if Ascii.eqb c quote then
            match read_string s' with
            | Some (str, rest) => Some (VStr str, rest)
            | None => None
            end
          else if Ascii.eqb c "["%char then
            match s' with
            | String "]"%char rest => Some (VArr [], rest)
            | _ => match parse_elements fuel s' with
                   | Some (l, rest) => Some (VArr l, rest)
                   | None => None
                   end
            end
          else if Ascii.eqb c "{"%char then
            match s' with
            | String "}"%char rest => Some (VObj ∅, rest)
            | _ => match parse_members fuel s' with
                   | Some (o, rest) => Some (VObj o, rest)
                   | None => None
                   end
            end
          else if is_number_char c then
            let (num, rest) := read_number s in
            Some (VNum (Number (negb (all_zero num)) num), rest)
          else
            match strip "null" s, strip "true" s, strip "false" s with
            | Some rest, _, _ => Some (VNull, rest)
            | _, Some rest, _ => Some (VBool true, rest)
            | _, _, Some rest => Some (VBool false, rest)
            | _, _, _ => None
            end
      end
  end
with parse_elements (fuel : nat) (s : string) : option (list value * string) :=
  match fuel with
  | 0 => None
  | S fuel =>
      match parse_value fuel s with
      | Some (v, String ","%char rest) =>
          match parse_elements fuel rest with
          | Some (l, rest') => Some (v :: l, rest')
          | None => None
          end
      | Some (v, String "]"%char rest) => Some ([v], rest)
      | _ => None
      end
  end
with parse_members (fuel : nat) (s : string) : option (obj * string) :=
  match fuel with
  | 0 => None
  | S fuel =>
      match s with
      | String c s' =>
          if Ascii.eqb c quote then
            match read_string s' with
            | Some (k, String ":"%char rest) =>
                match parse_value fuel rest with
                | Some (v, String ","%char rest') =>
                    match parse_members fuel rest' with
                    | Some (o, rest'') =>
                        Some (match o !! k with Some _ => o | None => <[k := v]> o end, rest'')
                    | None => None
                    end
                | Some (v, String "}"%char rest') => Some ({[ k := v ]}, rest')
                | _ => None
                end
            | _ => None
            end
          else None
      | EmptyString => None
      end
  end.

Definition parse (s : string) : completion value :=
  match parse_value (2 * String.length s + 2) s with
  | Some (v, EmptyString) => Normal v
  | _ => Throw (ErrorObject "SyntaxError" "Unexpected token in JSON")
  end.

(** The envelope as JSON text. *)
Definition format (data : obj) (urls : list value) : string :=
  print 64 (VObj {[ "data" := VObj data; "sourceUrls" := VArr urls ]}).

(** The upstream API: a failure on the paths that are down, else an echo of
    the request. *)
Definition api (path : string) (params : obj) (w : World)
    : completion (value * string) * World :=
  if bool_decide (path ∈ down w)
  then (Throw (Error ("HTTP 503 for " +:+ path)), w)
  else (Normal (VArr [VObj params],
                "https://sim.test" +:+ path +:+ "?symbol="
                  +:+ ToString (default VUndefined (params !! "symbol"))),
        mkWorld (llm_reply w) (down w) (today w) (S (served w))).

(** A tool that answers with an envelope around its arguments. *)
Definition echo (n : string) : ImportedTool World :=
  mkImportedTool n (fun args w =>
    (Normal (VStr (format {[ n := VObj args ]} [VStr ("https://sim.test/" +:+ n)])), w)).

(** A tool whose answer is not JSON. *)
Definition garbled (n : string) : ImportedTool World :=
  mkImportedTool n (fun args w => (Normal (VStr "upstream unavailable"), w)).

(** A tool whose envelope has no [sourceUrls]. *)
Definition unsourced (n : string) : ImportedTool World :=
  mkImportedTool n (fun args w =>
    (Normal (VStr (print 64 (VObj {[ "data" := VArr [VStr "BTC-USD"; VStr "ETH-USD"] ]}))), w)).

#[global] Instance imports : Imports World := {|
  JSON_parse := parse;
  JSON_stringify := stringify;
  ToolInputParsingException := fun _ =>
    ErrorObject "ToolInputParsingException"
                "Received tool input did not match expected schema";
  formatToolResult := format;
  getCurrentDate := today;
  callLlm := fun _ _ w => (llm_reply w, w);
  callApi := api;
  getPriceSnapshot := echo "get_price_snapshot";
  getPrices := echo "get_prices";
  getCryptoPriceSnapshot := echo "get_crypto_price_snapshot";
  getCryptoPrices := echo "get_crypto_prices";
  getCryptoTickers := unsourced "get_available_crypto_tickers";
  getFinancialMetricsSnapshot := echo "get_financial_metrics_snapshot";
  getFinancialMetrics := echo "get_financial_metrics";
  getAnalystEstimates := echo "get_analyst_estimates";
  getFilings := echo "get_filings";
  get10KFilingItems := echo "get_10K_filing_items";
  get10QFilingItems := echo "get_10Q_filing_items";
  get8KFilingItems := echo "get_8K_filing_items";
  getNews := garbled "get_news";
  getInsiderTrades := echo "get_insider_trades";
  getSegmentedRevenues := echo "get_segmented_revenues";
  getCompanyFacts := echo "get_company_facts";
|}.

(** A state whose language model answers [reply]. *)
Definition start (reply : completion AIMessage) : State World :=
  mkState (mkWorld reply [] "2025-01-01" 0) [].

Definition selects (tcs : list ToolCall) : completion AIMessage :=
  Normal (mkAIMessage (Some tcs)).

(** Tool calls to run. *)
Definition income_AAPL : ToolCall :=
  mkToolCall "get_income_statements"
    {[ "ticker" := VStr "AAPL"; "period" := VStr "annual" ]}.

Definition income_blank : ToolCall :=
  mkToolCall "get_income_statements"
    {[ "ticker" := VStr ""; "period" := VStr "annual" ]}.

Definition prices_TSLA : ToolCall :=
  mkToolCall "get_prices" {[ "ticker" := VStr "TSLA" ]}.

Definition crypto_tickers : ToolCall :=
  mkToolCall "get_available_crypto_tickers" ∅.

Definition news : ToolCall := mkToolCall "get_news" ∅.

Definition weather : ToolCall := mkToolCall "get_weather" ∅.

(** The results of a run of a batch. *)
Definition results {A} (run : completion (list A) * State World) : list A :=
  match run.1 with
  | Normal l => l
  | Throw _ => []
  end.

(** The state before anything has run. *)
Definition st0 : State World := start (selects []).

(** The parameters of the statement requests for AAPL, what the simulated
    API answers to the income-statement request, and the URL of that
    request. *)
Definition AAPL_params : obj :=
  {[ "symbol" := VStr "AAPL"; "period" := VStr "annual"; "limit" := VNum ten ]}.

Definition AAPL_payload : value := VArr [VObj AAPL_params].

Definition income_url : string := "https://sim.test/income-statement?symbol=AAPL".

Definition income_text : string :=
  format {[ "income_statements" := AAPL_payload ]} [VStr income_url].

Definition income_envelope : obj :=
  {[ "data" := VObj {[ "income_statements" := AAPL_payload ]};
     "sourceUrls" := VArr [VStr income_url] ]}.

(** The world after [n] requests. *)
Definition served_world (n : nat) : World :=
  mkWorld (selects []) [] "2025-01-01" n.

(** The state after the income-statement tool has run from [st0]. *)
Definition st_income : State World :=
  mkState (served_world 1)
    [ EvInvoke "get_income_statements" (tc_args income_AAPL);
      EvApi "/income-statement" AAPL_params ].

(** The envelope of the tool that leaves [sourceUrls] out. *)
Definition tickers_envelope : obj :=
  {[ "data" := VArr [VStr "BTC-USD"; VStr "ETH-USD"] ]}.

Definition tickers_text : string := print 64 (VObj tickers_envelope).

Definition st_tickers : State World :=
  mkState (world st0) [ EvInvoke "get_available_crypto_tickers" ∅ ].

(** The result of the income-statement call with the empty ticker, and the
    state after it. *)
Definition blank_params : obj :=
  {[ "symbol" := VStr ""; "period" := VStr "annual"; "limit" := VNum ten ]}.

Definition blank_result : ExecutionResult :=
  mkExecutionResult "get_income_statements" (tc_args income_blank)
    (VObj {[ "income_statements" := VArr [VObj blank_params] ]})
    (VArr [VStr "https://sim.test/income-statement?symbol="])
    None.


(** A result of [get_prices] for a ticker argument. *)
Definition prices_result (ticker : value) : ExecutionResult :=
  mkExecutionResult "get_prices" {[ "ticker" := ticker ]} (VStr (ToString ticker))
    (VArr []) None.
End Sim.

(** * Properties *)

(** Unfolds the operations of the monad. *)
Ltac unfold_M :=
  unfold mbind, mret, M_bind, M_ret, bind, ret, throw, try_catch,
    lift_completion, call_out in *.

(** ** fundamentals.ts *)

Lemma Period_of_string_spec (s : string) (p : Period) :
  Period_of_string s = Some p ↔ s = Period_string p.
Proof.
  unfold Period_of_string. split.
  - repeat case_decide; intros [= <-]; by subst.
  - intros ->. by destruct p.
Qed.

(** C4. The period mapping is total on the enumeration: quarterly goes to
    quarter, annual to annual, ttm to the fallback annual; every value of
    the enumeration (the values the input schema accepts, and only those)
    is sent to exactly one upstream value, quarter or annual. *)
Theorem mapPeriod_total :
  mapPeriod "quarterly" = "quarter" ∧
  mapPeriod "annual" = "annual" ∧
  mapPeriod "ttm" = "annual" ∧
  (∀ s : string, is_Some (Period_of_string s) ↔ s ∈ ["annual"; "quarterly"; "ttm"]) ∧
  (∀ p : Period, ∃ u : string,
      u ∈ ["quarter"; "annual"] ∧
      ∀ u' : string, mapPeriod (Period_string p) = u' ↔ u' = u).
Proof.
  split_and!; try reflexivity.
  - intros s. split.
    + intros [p ->%Period_of_string_spec]. destruct p; set_solver.
    + intros Hs. rewrite !elem_of_cons, elem_of_nil in Hs.
      destruct Hs as [-> | [-> | [-> | []]]]; by eexists.
  - intros p. exists (mapPeriod (Period_string p)). split.
    + destruct p; set_solver.
    + intros u'. split; by intros ->.
Qed.

Section FundamentalsProperties.
Context {W : Type} `{!Imports W}.

Lemma call_api_run (path : string) (params : obj) (st : State W) :
  call_api path params st =
    ((callApi path params (world st)).1,
     mkState (callApi path params (world st)).2 (trace st ++ [EvApi path params])).
Proof. unfold call_api, call_out. by destruct (callApi _ _ _). Qed.

(** C5. For every input the composite adapter issues the three requests
    (income statement, balance sheet, cash flow statement, with the same
    parameters); when the three succeed it returns their payloads under the
    three distinct labels, and as source URLs the URL of the income-statement
    request alone, whatever the URLs of the other two are. *)
Theorem getAllFinancialStatements_composite
    (input : FinancialStatementsInput) (st : State W) :
  let params := statement_params input (mapPeriod (Period_string (period input))) in
  ∃ (c : completion string) (w' : W),
    getAllFinancialStatements_func input st =
      (c, mkState w' (trace st ++ [ EvApi "/income-statement" params;
                                    EvApi "/balance-sheet-statement" params;
                                    EvApi "/cash-flow-statement" params ])) ∧
    ∀ (d1 d2 d3 : value) (u1 u2 u3 : string) (w1 w2 w3 : W),
      callApi "/income-statement" params (world st) = (Normal (d1, u1), w1) →
      callApi "/balance-sheet-statement" params w1 = (Normal (d2, u2), w2) →
      callApi "/cash-flow-statement" params w2 = (Normal (d3, u3), w3) →
      ∃ merged : obj,
        c = Normal (formatToolResult merged [VStr u1]) ∧ w' = w3 ∧
        merged !! "income_statements" = Some d1 ∧
        merged !! "balance_sheets" = Some d2 ∧
        merged !! "cash_flow_statements" = Some d3 ∧
        dom merged = {[ "income_statements"; "balance_sheets"; "cash_flow_statements" ]} ∧
        size merged = 3.
Proof.
  intros params.
  unfold getAllFinancialStatements_func, all_statement_calls. fold params.
  unfold_M. cbn [Promise_all]. rewrite !call_api_run. cbn [world trace].
  destruct (callApi "/income-statement" params (world st)) as [c1 w1] eqn:E1.
  cbn [fst snd].
  destruct (callApi "/balance-sheet-statement" params w1) as [c2 w2] eqn:E2.
  cbn [fst snd].
  destruct (callApi "/cash-flow-statement" params w2) as [c3 w3] eqn:E3.
  cbn [fst snd]. unfold ret. rewrite <- !app_assoc. cbn [app].
  destruct c1 as [[d1 u1] | e1], c2 as [[d2 u2] | e2], c3 as [[d3 u3] | e3];
    (eexists _, _; split; [reflexivity |]);
    intros ????????? H1 H2 H3;
    simplify_eq; rewrite E2 in H2; simplify_eq;
    rewrite E3 in H3; simplify_eq.
  eexists; split_and!; reflexivity.
Qed.
End FundamentalsProperties.

(** ** financial-search.ts: the executor *)

Section ExecutorProperties.
Context {W : Type} `{!Imports W}.


(** The callback never rejects. *)
Lemma executeToolCall_returns (tc : ToolCall) (st : State W) :
  ∃ (r : ExecutionResult) (st' : State W),
    executeToolCall tc st = (Normal r, st') ∧
    tool r = tc_name tc ∧ args r = tc_args tc ∧ from_executor r.
Proof.
  unfold executeToolCall. unfold_M.
  destruct (FINANCE_TOOL_MAP !! tc_name tc) as [t|] eqn:Ht;
    [| by do 2 eexists].
  destruct (invoke t (tc_args tc) (invoking tc st)) as [[raw|e] st1];
    [| by do 2 eexists].
  destruct (result_string raw) as [s|]; [| by do 2 eexists].
  destruct (JSON_parse s) as [parsed|e]; [| by do 2 eexists].
  destruct (get_property parsed "data") as [d|e]; [| by do 2 eexists].
  destruct (get_property parsed "sourceUrls") as [u|e]; [| by do 2 eexists].
  do 2 eexists. split_and!; try reflexivity.
  unfold from_executor. cbn [error tool]. by rewrite Ht.
Qed.


Lemma executeToolCalls_cons (tc : ToolCall) (tcs : list ToolCall)
    (st st1 st2 : State W) (r : ExecutionResult) (rs : list ExecutionResult) :
  executeToolCall tc st = (Normal r, st1) →
  executeToolCalls tcs st1 = (Normal rs, st2) →
  executeToolCalls (tc :: tcs) st = (Normal (r :: rs), st2).
Proof.
  unfold executeToolCalls. cbn [map Promise_all]. by intros -> ->.
Qed.



(** C1. A call that names a registered tool, whose invocation returns, and
    whose result (a string, or what [JSON.stringify] makes of it) parses to
    an envelope object, gives a result with [error: null] whose [data] is the
    [data] property of the envelope ([undefined] when the envelope has none).
    The state is the one the invocation left. *)
Theorem executeToolCall_success (tc : ToolCall) (t : Tool W)
    (st st1 : State W) (rawResult : value) (resultStr : string) (envelope : obj) :
  FINANCE_TOOL_MAP !! tc_name tc = Some t →
  invoke t (tc_args tc) (invoking tc st) = (Normal rawResult, st1) →
  result_string rawResult = Some resultStr →
  JSON_parse resultStr = Normal (VObj envelope) →
  ∃ r : ExecutionResult,
    executeToolCall tc st = (Normal r, st1) ∧
    error r = None ∧
    data r = default VUndefined (envelope !! "data") ∧
    (∀ d : value, envelope !! "data" = Some d → data r = d) ∧
    tool r = tc_name tc ∧ args r = tc_args tc.
Proof.
  intros Ht Hinv Hstr Hparse.
  unfold executeToolCall. unfold_M.
  rewrite Ht, Hinv, Hstr, Hparse. cbn.
  eexists. split_and!; try reflexivity.
  cbn. by intros d ->.
Qed.


(** C9. A successful invocation whose envelope has no [sourceUrls], or a
    falsy one, gives a result without error whose [sourceUrls] is the empty
    array; in the concatenation of the URLs it contributes nothing. *)
Theorem missing_sourceUrls_empty (tc : ToolCall) (t : Tool W)
    (st st1 : State W) (rawResult : value) (resultStr : string) (envelope : obj) :
  FINANCE_TOOL_MAP !! tc_name tc = Some t →
  invoke t (tc_args tc) (invoking tc st) = (Normal rawResult, st1) →
  result_string rawResult = Some resultStr →
  JSON_parse resultStr = Normal (VObj envelope) →
  truthy (default VUndefined (envelope !! "sourceUrls")) = false →
  ∃ r : ExecutionResult,
    executeToolCall tc st = (Normal r, st1) ∧
    error r = None ∧
    sourceUrls r = VArr [] ∧
    ∀ rs1 rs2 : list ExecutionResult,
      allUrls (rs1 ++ r :: rs2) = allUrls rs1 ++ allUrls rs2.
Proof.
  intros Ht Hinv Hstr Hparse Hfalsy.
  unfold executeToolCall. unfold_M.
  rewrite Ht, Hinv, Hstr, Hparse. cbn [get_property]. rewrite Hfalsy.
  eexists. split_and!; try reflexivity.
  intros rs1 rs2. unfold allUrls, flatMap.
  by rewrite map_app, concat_app.
Qed.


End ExecutorProperties.

(** ** financial-search.ts: the merge *)

Lemma result_key_absent (r : ExecutionResult) :
  args r !! "ticker" = None → result_key r = tool r.
Proof. unfold result_key. by intros ->. Qed.

Lemma result_key_falsy (r : ExecutionResult) (v : value) :
  args r !! "ticker" = Some v → truthy v = false → result_key r = tool r.
Proof. unfold result_key. intros -> Hv. cbn. by rewrite Hv. Qed.




Lemma append_length (s1 s2 : string) :
  String.length (s1 +:+ s2) = String.length s1 + String.length s2.
Proof. induction s1 as [|c s1 IH]; [done |]. simpl. by rewrite IH. Qed.

Lemma append_suffix_ne (p s : string) : p +:+ "_" +:+ s ≠ p.
Proof.
  intros Heq%(f_equal String.length).
  rewrite !append_length in Heq. cbn in Heq. lia.
Qed.



Lemma js_set_lookup (o : obj) (k k' : string) (v : value) :
  k' ≠ "__proto__" →
  js_set o k v !! k' = if decide (k = k') then Some v else o !! k'.
Proof.
  intros Hk'. unfold js_set. case_decide as Hk.
  - subst. by rewrite decide_False.
  - apply lookup_insert.
Qed.

Lemma merge_data_snoc (l : list ExecutionResult) (r : ExecutionResult) :
  merge_data (l ++ [r]) = js_set (merge_data l) (result_key r) (data r).
Proof. unfold merge_data. by rewrite foldl_app. Qed.

(** Last write wins: under a key the merged object holds the data of the
    last result with that key. *)
Lemma merge_data_lookup (l : list ExecutionResult) (k : string) :
  k ≠ "__proto__" →
  merge_data l !! k = data <$> last (filter (fun r => result_key r = k) l).
Proof.
  intros Hk. induction l as [|r l IH] using rev_ind; [done |].
  rewrite merge_data_snoc, js_set_lookup, filter_app, filter_cons, filter_nil by done.
  case_decide.
  - by rewrite last_snoc.
  - by rewrite app_nil_r.
Qed.

Lemma combinedData_lookup (rs : list ExecutionResult) (k : string) :
  k ≠ "_errors" → k ≠ "__proto__" →
  combinedData rs !! k =
    data <$> last (filter (fun r => result_key r = k) (successfulResults rs)).
Proof.
  intros He Hp. unfold combinedData. case_decide.
  - rewrite js_set_lookup, decide_False by done. by apply merge_data_lookup.
  - by apply merge_data_lookup.
Qed.




(** C10. The ticker is tested for truthiness: a result whose [ticker]
    argument is the empty string is keyed by the tool name alone, the key of
    a result of the same tool with no [ticker] argument, and the merge stores
    its data under that key. *)
Theorem empty_ticker_bare_key (r : ExecutionResult) :
  error r = None →
  args r !! "ticker" = Some (VStr "") →
  result_key r = tool r ∧
  result_key r ≠ tool r +:+ "_" ∧
  (∀ r' : ExecutionResult,
      tool r' = tool r → args r' !! "ticker" = None → result_key r' = result_key r) ∧
  combinedData [r] = js_set ∅ (tool r) (data r).
Proof.
  intros He Ht.
  assert (result_key r = tool r) as Hk by by eapply result_key_falsy.
  split_and!; try done.
  - rewrite Hk. intros Heq. symmetry in Heq.
    by apply (append_suffix_ne _ "") in Heq.
  - intros r' Htool Hno. by rewrite Hk, result_key_absent.
  - unfold combinedData, successfulResults, failedResults.
    rewrite !filter_cons, !filter_nil.
    repeat case_decide; try done; try (simpl in *; lia).
    unfold merge_data. simpl. by rewrite Hk.
Qed.


Section AggregationProperties.
Context {W : Type} `{!Imports W}.

Lemma tool_map_lookup_last (l : list (Tool W)) (m : gmap string (Tool W)) (n : string) :
  foldl (fun m t => <[name t := t]> m) m l !! n =
    match last (filter (fun t => name t = n) l) with
    | Some t => Some t
    | None => m !! n
    end.
Proof.
  revert m. induction l as [|t l IH] using rev_ind; intros m; [done |].
  rewrite foldl_app, filter_app, filter_cons, filter_nil. cbn [foldl].
  rewrite lookup_insert. case_decide.
  - by rewrite last_snoc.
  - rewrite app_nil_r. apply IH.
Qed.

(** The registry maps a name to the last tool of [FINANCE_TOOLS] with that
    name. *)
Lemma FINANCE_TOOL_MAP_last (n : string) :
  FINANCE_TOOL_MAP !! n = last (filter (fun t => name t = n) FINANCE_TOOLS).
Proof.
  unfold FINANCE_TOOL_MAP. rewrite tool_map_lookup_last, lookup_empty.
  by destruct (last _).
Qed.

(** The registry maps a name to a tool of [FINANCE_TOOLS] with that name. *)
Lemma registered_tool (n : string) (t : Tool W) :
  FINANCE_TOOL_MAP !! n = Some t → t ∈ FINANCE_TOOLS ∧ name t = n.
Proof.
  rewrite FINANCE_TOOL_MAP_last. intros Hlast%last_Some_elem_of.
  apply list_elem_of_filter in Hlast as [? ?]. done.
Qed.




Lemma call_llm_trace (q m : string) (st st1 : State W) (c : completion AIMessage) :
  call_llm q m st = (c, st1) → trace st1 = trace st ++ [EvLlm q m].
Proof.
  unfold call_llm, buildRouterPrompt. unfold_M.
  destruct (callLlm _ _ _). by intros [= _ <-].
Qed.

(** C8.  When the call to the language model throws, [func] returns the
    one-key error result [LLM call failed: ...] with no source URLs; when it
    returns a message without tool calls, [func] returns the one-key error
    result [No tools selected for query] with no source URLs, a different
    message.  In both cases [func] ends in the state the call to the model
    left, and the only event added to the trace is that call: no tool is
    invoked, no request is sent. *)
Theorem decision_failure_or_no_tools (model : string) (input : FinancialSearchInput)
    (st st1 : State W) (c : completion AIMessage) :
  call_llm (query input) model st = (c, st1) →
  match c with Throw _ => True | Normal response => no_tool_calls response end →
  ∃ message : string,
    financial_search_func model input st =
      (Normal (formatToolResult {[ "error" := VStr message ]} []), st1) ∧
    trace st1 = trace st ++ [EvLlm (query input) model] ∧
    dom ({[ "error" := VStr message ]} : obj) = {[ "error" ]} ∧
    match c with
    | Throw e =>
        message = "LLM call failed: " +:+ thrown_ToString e ∧
        message ≠ "No tools selected for query"
    | Normal _ => message = "No tools selected for query"
    end.
Proof.
  intros Hllm Hc. pose proof (call_llm_trace _ _ _ _ _ Hllm) as Htrace.
  unfold financial_search_func. unfold_M.
  unfold mbind, M_bind, bind in Hllm. rewrite Hllm.
  destruct c as [response | e].
  - exists "No tools selected for query".
    destruct Hc as [-> | ->]; split_and!; done || apply dom_singleton_L.
  - eexists. split_and!; done || apply dom_singleton_L.
Qed.
End AggregationProperties.

(** * Runs in the simulated environment *)

Lemma executeToolCall_success_witness :
  FINANCE_TOOL_MAP !! tc_name Sim.income_AAPL = Some getIncomeStatements ∧
  invoke getIncomeStatements (tc_args Sim.income_AAPL)
    (invoking Sim.income_AAPL Sim.st0) = (Normal (VStr Sim.income_text), Sim.st_income) ∧
  JSON_parse Sim.income_text = Normal (VObj Sim.income_envelope) ∧
  ∃ r : ExecutionResult,
    executeToolCall Sim.income_AAPL Sim.st0 = (Normal r, Sim.st_income) ∧
    error r = None ∧
    data r = VObj {[ "income_statements" := Sim.AAPL_payload ]}.
Proof.
  assert (FINANCE_TOOL_MAP !! tc_name Sim.income_AAPL =
            Some (getIncomeStatements (W := Sim.World))) as H1
    by (rewrite FINANCE_TOOL_MAP_last; reflexivity).
  assert (invoke getIncomeStatements (tc_args Sim.income_AAPL)
            (invoking Sim.income_AAPL Sim.st0) =
          (Normal (VStr Sim.income_text), Sim.st_income)) as H2
    by (vm_compute; reflexivity).
  assert (JSON_parse Sim.income_text = Normal (VObj Sim.income_envelope)) as H4
    by (vm_compute; reflexivity).
  split; [exact H1 |]. split; [exact H2 |]. split; [exact H4 |].
  destruct (executeToolCall_success Sim.income_AAPL getIncomeStatements
              Sim.st0 Sim.st_income (VStr Sim.income_text) Sim.income_text
              Sim.income_envelope H1 H2 eq_refl H4)
    as (r & Hrun & Herr & _ & Hdata & _).
  exists r. split; [exact Hrun |]. split; [exact Herr |].
  apply Hdata. vm_compute. reflexivity.
Defined.


(** The batch of the witness, run: the two registered calls succeed around
    the unknown one, and the trace has no invocation of it. *)
Example unknown_tool_run :
  let run := executeToolCalls [Sim.income_AAPL; Sim.weather; Sim.prices_TSLA] Sim.st0 in
  map error (Sim.results run) = [None; Some "Tool 'get_weather' not found"; None] ∧
  trace run.2 =
    [ EvInvoke "get_income_statements" (tc_args Sim.income_AAPL);
      EvApi "/income-statement" Sim.AAPL_params;
      EvInvoke "get_prices" (tc_args Sim.prices_TSLA) ].
Proof. split; vm_compute; reflexivity. Qed.

Lemma missing_sourceUrls_empty_witness :
  FINANCE_TOOL_MAP !! tc_name Sim.crypto_tickers = Some (imported getCryptoTickers) ∧
  invoke (imported getCryptoTickers) (tc_args Sim.crypto_tickers)
    (invoking Sim.crypto_tickers Sim.st0) = (Normal (VStr Sim.tickers_text), Sim.st_tickers) ∧
  JSON_parse Sim.tickers_text = Normal (VObj Sim.tickers_envelope) ∧
  Sim.tickers_envelope !! "sourceUrls" = None ∧
  ∃ r : ExecutionResult,
    executeToolCall Sim.crypto_tickers Sim.st0 = (Normal r, Sim.st_tickers) ∧
    error r = None ∧
    sourceUrls r = VArr [] ∧
    allUrls [Sim.blank_result; r; Sim.blank_result] =
      allUrls [Sim.blank_result] ++ allUrls [Sim.blank_result].
Proof.
  assert (FINANCE_TOOL_MAP !! tc_name Sim.crypto_tickers =
            Some (imported (getCryptoTickers (W := Sim.World)))) as H1
    by (rewrite FINANCE_TOOL_MAP_last; reflexivity).
  assert (invoke (imported getCryptoTickers) (tc_args Sim.crypto_tickers)
            (invoking Sim.crypto_tickers Sim.st0) =
          (Normal (VStr Sim.tickers_text), Sim.st_tickers)) as H2
    by (vm_compute; reflexivity).
  assert (JSON_parse Sim.tickers_text = Normal (VObj Sim.tickers_envelope)) as H4
    by (vm_compute; reflexivity).
  assert (Sim.tickers_envelope !! "sourceUrls" = None) as H5
    by (vm_compute; reflexivity).
  split; [exact H1 |]. split; [exact H2 |]. split; [exact H4 |]. split; [exact H5 |].
  destruct (missing_sourceUrls_empty Sim.crypto_tickers (imported getCryptoTickers)
              Sim.st0 Sim.st_tickers (VStr Sim.tickers_text) Sim.tickers_text
              Sim.tickers_envelope H1 H2 eq_refl H4)
    as (r & Hrun & Herr & Hurls & Hcat).
  { rewrite H5. reflexivity. }
  exists r. split; [exact Hrun |]. split; [exact Herr |]. split; [exact Hurls |].
  exact (Hcat [Sim.blank_result] [Sim.blank_result]).
Defined.

Lemma empty_ticker_bare_key_witness :
  error (Sim.prices_result (VStr "")) = None ∧
  args (Sim.prices_result (VStr "")) !! "ticker" = Some (VStr "") ∧
  result_key (Sim.prices_result (VStr "")) = "get_prices" ∧
  combinedData [Sim.prices_result (VStr "")] = js_set ∅ "get_prices" (VStr "").
Proof.
  assert (args (Sim.prices_result (VStr "")) !! "ticker" = Some (VStr "")) as Ht
    by (vm_compute; reflexivity).
  destruct (empty_ticker_bare_key (Sim.prices_result (VStr "")) eq_refl Ht)
    as (Hkey & _ & _ & Hmerge).
  split; [reflexivity |]. split; [exact Ht |]. split; [exact Hkey | exact Hmerge].
Defined.




(** The batch of the witness, run: two failures listed under [_errors], the
    two successes under their keys, the URLs of the successes in order. *)
Example errors_key_run :
  let results :=
    Sim.results (executeToolCalls
                   [Sim.income_AAPL; Sim.weather; Sim.news; Sim.prices_TSLA] Sim.st0) in
  dom (combinedData results) =
    {[ "_errors"; "get_income_statements_AAPL"; "get_prices_TSLA" ]} ∧
  map (fun r => (tool r, error r)) (failedResults results) =
    [ ("get_weather", Some "Tool 'get_weather' not found");
      ("get_news", Some "Unexpected token in JSON") ] ∧
  allUrls results = [ VStr Sim.income_url; VStr "https://sim.test/get_prices" ].
Proof. split_and!; vm_compute; reflexivity. Qed.

Lemma decision_failure_or_no_tools_witness :
  (∃ st1 : State Sim.World,
     call_llm "q" "m" (Sim.start (Throw (Error "timeout"))) =
       (Throw (Error "timeout"), st1) ∧
     financial_search_func "m" (mkFinancialSearchInput "q")
       (Sim.start (Throw (Error "timeout"))) =
       (Normal (formatToolResult
                  {[ "error" := VStr "LLM call failed: Error: timeout" ]} []), st1) ∧
     trace st1 = [EvLlm "q" "m"]) ∧
  (∃ st1 : State Sim.World,
     call_llm "q" "m" (Sim.start (Sim.selects [])) =
       (Normal (mkAIMessage (Some [])), st1) ∧
     financial_search_func "m" (mkFinancialSearchInput "q") (Sim.start (Sim.selects [])) =
       (Normal (formatToolResult
                  {[ "error" := VStr "No tools selected for query" ]} []), st1) ∧
     trace st1 = [EvLlm "q" "m"]).
Proof.
  split.
  - assert (call_llm "q" "m" (Sim.start (Throw (Error "timeout"))) =
              (Throw (Error "timeout"),
               mkState (world (Sim.start (Throw (Error "timeout")))) [EvLlm "q" "m"]))
      as Hllm by (vm_compute; reflexivity).
    destruct (decision_failure_or_no_tools "m" (mkFinancialSearchInput "q")
                _ _ _ Hllm I) as (message & Hrun & Htrace & _ & -> & _).
    eexists. split; [exact Hllm |]. split; [exact Hrun | exact Htrace].
  - assert (call_llm "q" "m" (Sim.start (Sim.selects [])) =
              (Normal (mkAIMessage (Some [])),
               mkState (world (Sim.start (Sim.selects []))) [EvLlm "q" "m"]))
      as Hllm by (vm_compute; reflexivity).
    destruct (decision_failure_or_no_tools "m" (mkFinancialSearchInput "q")
                _ _ _ Hllm (or_intror eq_refl)) as (message & Hrun & Htrace & _ & ->).
    eexists. split; [exact Hllm |]. split; [exact Hrun | exact Htrace].
Defined.

Lemma getAllFinancialStatements_composite_witness :
  ∃ (merged : obj) (w' : Sim.World),
    getAllFinancialStatements_func (mkFinancialStatementsInput "AAPL" annual ten) Sim.st0 =
      (Normal (formatToolResult merged [VStr Sim.income_url]),
       mkState w' [ EvApi "/income-statement" Sim.AAPL_params;
                    EvApi "/balance-sheet-statement" Sim.AAPL_params;
                    EvApi "/cash-flow-statement" Sim.AAPL_params ]) ∧
    merged !! "income_statements" = Some Sim.AAPL_payload ∧
    merged !! "balance_sheets" = Some Sim.AAPL_payload ∧
    merged !! "cash_flow_statements" = Some Sim.AAPL_payload ∧
    size merged = 3.
Proof.
  destruct (getAllFinancialStatements_composite
              (mkFinancialStatementsInput "AAPL" annual ten) Sim.st0)
    as (c & w' & Hrun & Hok).
  destruct (Hok Sim.AAPL_payload Sim.AAPL_payload Sim.AAPL_payload
              Sim.income_url
              "https://sim.test/balance-sheet-statement?symbol=AAPL"
              "https://sim.test/cash-flow-statement?symbol=AAPL"
              (Sim.served_world 1) (Sim.served_world 2) (Sim.served_world 3))
    as (merged & -> & -> & H1 & H2 & H3 & _ & Hsize);
    [vm_compute; reflexivity .. |].
  exists merged, (Sim.served_world 3).
  split; [exact Hrun |]. split; [exact H1 |]. split; [exact H2 |].
  split; [exact H3 | exact Hsize].
Defined.

(** The scenario of the specification: the model selects
    [get_income_statements] for AAPL, annual, with the default limit; the
    response holds [data.get_income_statements_AAPL.income_statements] and
    one source URL. *)
Example income_statement_scenario :
  match (financial_search_func "m"
           (mkFinancialSearchInput "Apple's last year income statement")
           (Sim.start (Sim.selects [Sim.income_AAPL]))).1 with
  | Normal text => JSON_parse text
  | Throw e => Throw e
  end =
  Normal (VObj {[ "data" :=
                    VObj {[ "get_income_statements_AAPL" :=
                              VObj {[ "income_statements" := Sim.AAPL_payload ]} ]};
                  "sourceUrls" := VArr [VStr Sim.income_url] ]}).
Proof. vm_compute. reflexivity. Qed.

(** * Further properties *)

(** ** fundamentals.ts: the adapters as tools *)

(** [limit] as the schema reads it: the number given, [10] when left out. *)
Definition limit_of (args : obj) : number :=
  match args !! "limit" with
  | Some (VNum n) => n
  | _ => ten
  end.

(** [limit] is left out (or [undefined]), or a number. *)
Definition limit_ok (args : obj) : Prop :=
  match args !! "limit" with
  | None | Some VUndefined | Some (VNum _) => True
  | _ => False
  end.

(** The arguments the statements schema accepts. *)
Definition valid_statement_args (args : obj) : Prop :=
  (∃ t : string, args !! "ticker" = Some (VStr t)) ∧
  (∃ p : Period, args !! "period" = Some (VStr (Period_string p))) ∧
  limit_ok args.

(** An event is a request whose [period] is in the upstream vocabulary. *)
Definition upstream_request (ev : Event) : Prop :=
  match ev with
  | EvApi _ params =>
      params !! "period" = Some (VStr "quarter") ∨
      params !! "period" = Some (VStr "annual")
  | _ => False
  end.

Section AdapterProperties.
Context {W : Type} `{!Imports W}.


(** The four tools of [fundamentals.ts]. *)
Definition statement_tools : list (Tool W) :=
  [ getIncomeStatements; getBalanceSheets; getCashFlowStatements;
    getAllFinancialStatements ].

Lemma schema_accepts (args : obj) (t : string) (p : Period) :
  args !! "ticker" = Some (VStr t) →
  args !! "period" = Some (VStr (Period_string p)) →
  limit_ok args →
  FinancialStatementsInputSchema args =
    Some (mkFinancialStatementsInput t p (limit_of args)).
Proof.
  intros Ht Hp Hl. unfold FinancialStatementsInputSchema, limit_ok, limit_of in *.
  rewrite Ht, Hp. cbn.
  rewrite (proj2 (Period_of_string_spec _ p) eq_refl). cbn.
  destruct (args !! "limit") as [[]|]; done.
Qed.

Lemma schema_rejects (args : obj) :
  ¬ valid_statement_args args → FinancialStatementsInputSchema args = None.
Proof.
  intros Hbad. destruct (FinancialStatementsInputSchema args) as [input|] eqn:E; [| done].
  exfalso. apply Hbad. unfold FinancialStatementsInputSchema in E.
  destruct (args !! "ticker") as [[]|] eqn:Ht; try done. cbn in E.
  destruct (args !! "period") as [[]|] eqn:Hp; try done. cbn in E.
  destruct (Period_of_string _) as [p|] eqn:Hps; [| done].
  apply Period_of_string_spec in Hps as ->. cbn in E.
  split_and!; [by eexists | by eexists |].
  unfold limit_ok. destruct (args !! "limit") as [[]|]; done.
Qed.


(** X2. Invoked with arguments the schema does not accept (no string
    ticker, a period outside the enumeration, a limit that is not a number),
    each of the four tools throws the schema error and leaves the state as
    it was: no request is sent. *)
Theorem statement_tool_rejects (tool : Tool W) (args : obj) (st : State W) :
  tool ∈ statement_tools →
  ¬ valid_statement_args args →
  invoke tool args st = (Throw (ToolInputParsingException args), st).
Proof.
  intros Hin Hbad%schema_rejects.
  unfold statement_tools in Hin. rewrite !elem_of_cons, elem_of_nil in Hin.
  destruct Hin as [-> | [-> | [-> | [-> | []]]]];
    cbn [invoke getIncomeStatements getBalanceSheets getCashFlowStatements
         getAllFinancialStatements DynamicStructuredTool];
    by rewrite Hbad.
Qed.

(** X3. For every one of the four tools, a call for [ttm] is the call for
    [annual]: with otherwise acceptable arguments the two invocations send
    the same requests, end in the same state and return the same result. *)
Theorem ttm_is_annual (tool : Tool W) (args : obj) (t : string) (st : State W) :
  tool ∈ statement_tools →
  args !! "ticker" = Some (VStr t) →
  limit_ok args →
  invoke tool (<["period" := VStr "ttm"]> args) st =
  invoke tool (<["period" := VStr "annual"]> args) st.
Proof.
  intros Hin Ht Hl.
  assert (∀ p, FinancialStatementsInputSchema (<["period" := VStr (Period_string p)]> args) =
               Some (mkFinancialStatementsInput t p (limit_of args))) as Hs.
  { intros p. rewrite (schema_accepts _ t p).
    - unfold limit_of. by rewrite lookup_insert_ne.
    - by rewrite lookup_insert_ne.
    - by rewrite lookup_insert_eq.
    - unfold limit_ok. by rewrite lookup_insert_ne. }
  pose proof (Hs ttm) as Httm. pose proof (Hs annual) as Hannual.
  cbn [Period_string] in Httm, Hannual.
  unfold statement_tools in Hin. rewrite !elem_of_cons, elem_of_nil in Hin.
  destruct Hin as [-> | [-> | [-> | [-> | []]]]];
    cbn [invoke getIncomeStatements getBalanceSheets getCashFlowStatements
         getAllFinancialStatements DynamicStructuredTool];
    rewrite Httm, Hannual; reflexivity.
Qed.

Lemma statement_params_period (path : string) (input : FinancialStatementsInput) :
  upstream_request
    (EvApi path (statement_params input (mapPeriod (Period_string (period input))))).
Proof.
  unfold upstream_request, statement_params.
  destruct (period input); [right | left | right]; reflexivity.
Qed.

(** The composite adapter, run: the three requests thread the world, the
    first failure in array order is what it throws. *)
Lemma composite_run (input : FinancialStatementsInput) (st : State W) :
  let params := statement_params input (mapPeriod (Period_string (period input))) in
  let r1 := callApi "/income-statement" params (world st) in
  let r2 := callApi "/balance-sheet-statement" params r1.2 in
  let r3 := callApi "/cash-flow-statement" params r2.2 in
  getAllFinancialStatements_func input st =
    (match r1.1, r2.1, r3.1 with
     | Normal income, Normal balance, Normal cashflow =>
         Normal (formatToolResult
                   {[ "income_statements" := income.1;
                      "balance_sheets" := balance.1;
                      "cash_flow_statements" := cashflow.1 ]}
                   [VStr income.2])
     | Throw e, _, _ => Throw e
     | Normal _, Throw e, _ => Throw e
     | Normal _, Normal _, Throw e => Throw e
     end,
     mkState r3.2 (trace st ++ [ EvApi "/income-statement" params;
                                 EvApi "/balance-sheet-statement" params;
                                 EvApi "/cash-flow-statement" params ])).
Proof.
  intros params r1 r2 r3.
  unfold getAllFinancialStatements_func, all_statement_calls. fold params.
  unfold_M. cbn [Promise_all]. rewrite !call_api_run. cbn [world trace fst snd].
  fold r1. fold r2. fold r3. unfold ret. rewrite <- !app_assoc. cbn [app].
  by destruct r1.1, r2.1, r3.1.
Qed.

(** What the four tools add to the trace: requests with the parameters of
    the input, and nothing else.  [P] is what is to be known of such a
    request. *)
Lemma statement_tools_events (P : Event → Prop) :
  (∀ path input,
      P (EvApi path (statement_params input (mapPeriod (Period_string (period input)))))) →
  Forall (fun tool : Tool W =>
            ∀ (args : obj) (st : State W),
              ∃ evs : list Event,
                trace (invoke tool args st).2 = trace st ++ evs ∧ Forall P evs)
         statement_tools.
Proof.
  intros HP.
  assert (∀ path label input st,
            ∃ evs, trace (('(data, url) ←
                             call_api path
                               (statement_params input
                                  (mapPeriod (Period_string (period input))));
                           mret (formatToolResult {[ label := data ]} [VStr url]))
                            st : completion string * State W).2 = trace st ++ evs ∧
                   Forall P evs) as Hsingle.
  { intros path label input st. unfold_M. rewrite call_api_run.
    eexists [_]. split.
    - by destruct (callApi _ _ _) as [[[]|] ?].
    - constructor; [apply HP | constructor]. }
  assert (∀ (I : Type) (schema : obj → option I) (n : string) (func : I → M W string),
            (∀ input st, ∃ evs, trace (func input st).2 = trace st ++ evs ∧
                                Forall P evs) →
            ∀ args st, ∃ evs,
              trace (invoke (DynamicStructuredTool n schema func) args st).2 =
                trace st ++ evs ∧ Forall P evs) as Htool.
  { intros I schema n func Hfunc args st. cbn [invoke DynamicStructuredTool].
    destruct (schema args) as [input|].
    - destruct (Hfunc input st) as (evs & Ht & Hevs). exists evs. split; [| done].
      unfold_M. by destruct (func input st) as [[] ?].
    - exists []. split; [by rewrite app_nil_r | constructor]. }
  unfold statement_tools. repeat apply Forall_cons_2; [.. | apply Forall_nil_2];
    apply Htool; intros input st.
  - apply (Hsingle "/income-statement" "income_statements").
  - apply (Hsingle "/balance-sheet-statement" "balance_sheets").
  - apply (Hsingle "/cash-flow-statement" "cash_flow_statements").
  - rewrite composite_run. eexists. split; [reflexivity |].
    repeat (constructor; [apply HP |]). constructor.
Qed.

(** X4. Whatever the arguments, the events one of the four tools adds to
    the trace are requests whose [period] is [quarter] or [annual]: the
    upstream API never sees [quarterly] or [ttm]. *)
Theorem upstream_period_vocabulary :
  Forall (fun tool : Tool W =>
            ∀ (args : obj) (st : State W),
              ∃ evs : list Event,
                trace (invoke tool args st).2 = trace st ++ evs ∧
                Forall upstream_request evs)
         statement_tools.
Proof. apply statement_tools_events. intros path input. apply statement_params_period. Qed.

(** X5. The composite adapter is all or nothing.  The three requests run
    one after the other on the world, also after one has failed; the adapter
    returns an envelope exactly when the three succeeded, and otherwise
    throws an error that one of the requests threw. *)
Theorem composite_all_or_nothing (input : FinancialStatementsInput) (st : State W) :
  let params := statement_params input (mapPeriod (Period_string (period input))) in
  let r1 := callApi "/income-statement" params (world st) in
  let r2 := callApi "/balance-sheet-statement" params r1.2 in
  let r3 := callApi "/cash-flow-statement" params r2.2 in
  ∃ c : completion string,
    getAllFinancialStatements_func input st =
      (c, mkState r3.2 (trace st ++ [ EvApi "/income-statement" params;
                                      EvApi "/balance-sheet-statement" params;
                                      EvApi "/cash-flow-statement" params ])) ∧
    ((∃ text, c = Normal text) ↔
       ∃ x1 x2 x3, r1.1 = Normal x1 ∧ r2.1 = Normal x2 ∧ r3.1 = Normal x3) ∧
    (∀ e, c = Throw e → r1.1 = Throw e ∨ r2.1 = Throw e ∨ r3.1 = Throw e).
Proof.
  intros params r1 r2 r3. rewrite composite_run. fold params r1 r2 r3.
  eexists. split; [reflexivity |].
  destruct r1.1 as [x1|e1], r2.1 as [x2|e2], r3.1 as [x3|e3]; split.
  all: try (intros e He; simplify_eq; by auto).
  all: try (split; [intros [? ?] | intros (? & ? & ? & ? & ? & ?)]; by simplify_eq).
  split; [intros _; by eexists _, _, _ | intros _; by eexists].
Qed.

End AdapterProperties.

(** ** financial-search.ts: more on the merge *)

Lemma length_cons_append (c : ascii) (s x : string) :
  String.length (String c (s +:+ x)) = S (String.length s + String.length x).
Proof. simpl. f_equal. apply append_length. Qed.

Lemma append_inj_r (s1 s2 x : string) : s1 +:+ x = s2 +:+ x → s1 = s2.
Proof.
  revert s2. induction s1 as [|c s1 IH]; intros [|c2 s2] Heq.
  - done.
  - change (x = String c2 (s2 +:+ x)) in Heq.
    apply (f_equal String.length) in Heq. rewrite length_cons_append in Heq. lia.
  - change (String c (s1 +:+ x) = x) in Heq.
    apply (f_equal String.length) in Heq. rewrite length_cons_append in Heq. lia.
  - change (String c (s1 +:+ x) = String c2 (s2 +:+ x)) in Heq.
    injection Heq as -> Heq. f_equal. by apply IH.
Qed.

(** X7. Two results of different tools with the same [ticker] argument
    (or both without one) never share a key. *)
Theorem result_key_distinct_tools (r1 r2 : ExecutionResult) :
  args r1 !! "ticker" = args r2 !! "ticker" →
  tool r1 ≠ tool r2 →
  result_key r1 ≠ result_key r2.
Proof.
  intros Ht Hne. unfold result_key. rewrite Ht.
  destruct (truthy _); [| done].
  intros Heq%append_inj_r. done.
Qed.

Lemma filter_key_nil {A} (f : A → string) (l : list A) (k : string) :
  k ∉ map f l → filter (fun y => f y = k) l = [].
Proof.
  induction l as [|y l IH]; [done |]. cbn [map]. intros Hk.
  apply not_elem_of_cons in Hk as [Hy Hk].
  rewrite filter_cons, decide_False by done. by apply IH.
Qed.

Lemma filter_same_key {A} (f : A → string) (l : list A) (x : A) :
  NoDup (map f l) → x ∈ l → filter (fun y => f y = f x) l = [x].
Proof.
  induction l as [|y l IH]; intros Hnd Hin; [by apply elem_of_nil in Hin |].
  cbn [map] in Hnd. apply NoDup_cons in Hnd as [Hy Hnd].
  rewrite filter_cons. apply elem_of_cons in Hin as [-> | Hin].
  - rewrite decide_True by done. f_equal. by apply filter_key_nil.
  - rewrite decide_False; [by apply IH |].
    intros Heq. apply Hy. rewrite Heq. apply list_elem_of_fmap. by exists x.
Qed.

Lemma merge_data_proto (l : list ExecutionResult) : merge_data l !! "__proto__" = None.
Proof.
  induction l as [|r l IH] using rev_ind; [done |].
  rewrite merge_data_snoc. unfold js_set. case_decide as Hk; [done |].
  by rewrite lookup_insert_ne.
Qed.

Lemma merge_data_lookup_Some (l : list ExecutionResult) (k : string) (v : value) :
  merge_data l !! k = Some v → ∃ r, r ∈ l ∧ result_key r = k ∧ data r = v.
Proof.
  destruct (decide (k = "__proto__")) as [-> | Hk].
  { by rewrite merge_data_proto. }
  rewrite merge_data_lookup by done. intros (r & Hlast & ->)%fmap_Some.
  apply last_Some_elem_of, list_elem_of_filter in Hlast as [? ?]. by exists r.
Qed.

Lemma combinedData_lookup_data (rs : list ExecutionResult) (k : string) :
  k ≠ "_errors" →
  combinedData rs !! k = merge_data (successfulResults rs) !! k.
Proof.
  intros Hk. unfold combinedData. case_decide; [| done].
  unfold js_set. rewrite decide_False by done. by rewrite lookup_insert_ne.
Qed.

(** X8. The response never holds a key of its own making: every key of
    [combinedData] is [_errors] or the key of a successful result, and the
    value under such a key is the data of a successful result with that
    key. *)
Theorem combinedData_keys (rs : list ExecutionResult) (k : string) (v : value) :
  combinedData rs !! k = Some v →
  k = "_errors" ∨
  ∃ r, r ∈ rs ∧ error r = None ∧ result_key r = k ∧ data r = v.
Proof.
  intros Hk. destruct (decide (k = "_errors")) as [-> | Hne]; [by left |]. right.
  rewrite combinedData_lookup_data in Hk by done.
  apply merge_data_lookup_Some in Hk as (r & [He Hin]%list_elem_of_filter & ? & ?).
  by exists r.
Qed.

(** X9. When the successful results have pairwise different keys, none of
    them a reserved name, nothing is overwritten: every successful result
    is in the response under its key, with its own data. *)
Theorem distinct_keys_keep_all (rs : list ExecutionResult) (r : ExecutionResult) :
  NoDup (map result_key (successfulResults rs)) →
  Forall (fun r => result_key r ≠ "_errors" ∧ result_key r ≠ "__proto__")
         (successfulResults rs) →
  r ∈ rs → error r = None →
  combinedData rs !! result_key r = Some (data r).
Proof.
  intros Hnd Hplain Hin He.
  assert (r ∈ successfulResults rs) as Hs by by apply list_elem_of_filter.
  rewrite Forall_forall in Hplain. destruct (Hplain r Hs) as [He1 He2].
  rewrite combinedData_lookup by done.
  by rewrite (filter_same_key result_key).
Qed.

(** X10. With pairwise different keys among the successful results, the
    data part of the response does not depend on the order of the results:
    two batches of results that are permutations of each other give the
    same value under every key but [_errors]. *)
Theorem merge_order_independent (rs rs' : list ExecutionResult) (k : string) :
  rs ≡ₚ rs' →
  NoDup (map result_key (successfulResults rs)) →
  k ≠ "_errors" →
  combinedData rs !! k = combinedData rs' !! k.
Proof.
  intros Hperm Hnd Hk. rewrite !combinedData_lookup_data by done.
  assert (successfulResults rs ≡ₚ successfulResults rs') as Hs
    by (unfold successfulResults; by rewrite Hperm).
  assert (NoDup (map result_key (successfulResults rs'))) as Hnd'
    by by rewrite <- Hs.
  destruct (decide (k = "__proto__")) as [-> | Hp]; [by rewrite !merge_data_proto |].
  rewrite !merge_data_lookup by done.
  destruct (decide (k ∈ map result_key (successfulResults rs))) as [Hin | Hout].
  - apply list_elem_of_fmap in Hin as (r & -> & Hr).
    rewrite !(filter_same_key result_key); try done. by rewrite <- Hs.
  - rewrite !filter_key_nil; try done. by rewrite <- Hs.
Qed.

(** X11. When every result failed, the response data is the [_errors] list
    alone, with one entry per call, in order. *)
Theorem all_failed_only_errors (rs : list ExecutionResult) :
  rs ≠ [] →
  Forall (fun r => error r ≠ None) rs →
  combinedData rs = {[ "_errors" := VArr (map error_entry rs) ]}.
Proof.
  intros Hne Hall. unfold combinedData, successfulResults, failedResults.
  assert (filter (fun r => error r ≠ None) rs = rs) as ->.
  { induction Hall as [|r l Hr _ IH]; [done |].
    rewrite filter_cons, decide_True by done. f_equal.
    destruct l; [done | by apply IH]. }
  assert (filter (fun r => error r = None) rs = []) as ->.
  { clear Hne. induction Hall as [|r l Hr _ IH]; [done |].
    by rewrite filter_cons, decide_False. }
  rewrite decide_True by (destruct rs; [done | cbn; lia]).
  reflexivity.
Qed.

(** ** financial-search.ts: more on the executor and the router *)

(** The tool invocations on a trace, in order. *)
Definition invocations (evs : list Event) : list (string * obj) :=
  omap (fun ev => match ev with
                  | EvInvoke n a => Some (n, a)
                  | _ => None
                  end) evs.

(** An event that is a request to the upstream API. *)
Definition is_request (ev : Event) : Prop :=
  match ev with EvApi _ _ => True | _ => False end.

(** An event that is no call to the language model. *)
Definition no_llm (ev : Event) : Prop :=
  match ev with EvLlm _ _ => False | _ => True end.

(** The per-item error with a message. *)
Definition failure (tc : ToolCall) (message : string) : ExecutionResult :=
  mkExecutionResult (tc_name tc) (tc_args tc) VNull (VArr []) (Some message).

(** A parsed value that is neither an object nor [null]: a boolean, a
    number, a string or an array. *)
Definition not_an_envelope (parsed : value) : Prop :=
  match parsed with
  | VBool _ | VNum _ | VStr _ | VArr _ => True
  | _ => False
  end.

Section RouterProperties.
Context {W : Type} `{!Imports W}.

Lemma imported_trace (t : ImportedTool W) (args : obj) (st : State W) :
  trace (invoke (imported t) args st).2 = trace st.
Proof. cbn [invoke imported]. by destruct (imported_invoke _ _ _). Qed.

(** A registered tool adds requests to the trace and nothing else. *)
Lemma registry_tool_events (t : Tool W) (args : obj) (st : State W) :
  t ∈ FINANCE_TOOLS →
  ∃ evs : list Event,
    trace (invoke t args st).2 = trace st ++ evs ∧ Forall is_request evs.
Proof.
  intros Hin.
  pose proof (statement_tools_events is_request (fun _ _ => I)) as Hst.
  unfold statement_tools in Hst. rewrite !Forall_cons in Hst.
  destruct Hst as (H1 & H2 & H3 & H4 & _).
  unfold FINANCE_TOOLS in Hin. rewrite !elem_of_cons, elem_of_nil in Hin.
  repeat (destruct Hin as [-> | Hin];
          [first [ exists []; split; [by rewrite imported_trace, app_nil_r | constructor]
                 | apply H1 | apply H2 | apply H3 | apply H4 ] |]).
  done.
Qed.

Lemma invocations_requests (evs : list Event) :
  Forall is_request evs → invocations evs = [] ∧ Forall no_llm evs.
Proof.
  induction 1 as [|[] evs Hev _ [IH1 IH2]]; try done.
  split; [done | by constructor].
Qed.

(** The state a call leaves is the state the invocation left: what follows
    the invocation (stringify, parse, property reads) touches nothing. *)
Lemma executeToolCall_state (tc : ToolCall) (st : State W) :
  (executeToolCall tc st).2 =
    match FINANCE_TOOL_MAP !! tc_name tc with
    | Some t => (invoke t (tc_args tc) (invoking tc st)).2
    | None => st
    end.
Proof.
  unfold executeToolCall. unfold_M.
  destruct (FINANCE_TOOL_MAP !! tc_name tc) as [t|]; [| done].
  destruct (invoke t (tc_args tc) (invoking tc st)) as [[raw|e] st1]; [| done].
  destruct (result_string raw) as [s|]; [| done].
  destruct (JSON_parse s) as [parsed|e]; [| done].
  destruct (get_property parsed "data") as [d|e]; [| done].
  by destruct (get_property parsed "sourceUrls") as [u|e].
Qed.

(** What one call adds to the trace: its invocation when the name is
    registered, then requests; nothing when it is not. *)
Lemma executeToolCall_trace (tc : ToolCall) (st : State W) :
  ∃ evs : list Event,
    trace (executeToolCall tc st).2 = trace st ++ evs ∧
    invocations evs =
      (if decide (is_Some (FINANCE_TOOL_MAP !! tc_name tc))
       then [(tc_name tc, tc_args tc)] else []) ∧
    Forall no_llm evs.
Proof.
  rewrite executeToolCall_state.
  destruct (FINANCE_TOOL_MAP !! tc_name tc) as [t|] eqn:Ht.
  - apply registered_tool in Ht as [Hin _].
    destruct (registry_tool_events t (tc_args tc) (invoking tc st) Hin)
      as (evs & Htr & [Hinv Hllm]%invocations_requests).
    exists (EvInvoke (tc_name tc) (tc_args tc) :: evs). split_and!.
    + rewrite Htr. cbn [invoking trace]. by rewrite <- app_assoc.
    + rewrite decide_True by by eexists.
      change (invocations (EvInvoke (tc_name tc) (tc_args tc) :: evs))
        with ((tc_name tc, tc_args tc) :: invocations evs).
      by rewrite Hinv.
    + by constructor.
  - exists []. split_and!; [by rewrite app_nil_r | | constructor].
    rewrite decide_False; [done |]. by intros [? ?].
Qed.

(** X12. A call gives a result without error exactly when its name is
    registered, the invocation returns, the result has a string form, that
    string parses, and the parsed value is not [null]; every other course of
    events gives a result with an error.  Either way the callback returns. *)
Theorem executeToolCall_success_iff (tc : ToolCall) (st : State W) :
  ∃ (r : ExecutionResult) (st' : State W),
    executeToolCall tc st = (Normal r, st') ∧
    (error r = None ↔
       ∃ (t : Tool W) (rawResult : value) (resultStr : string) (parsed : value),
         FINANCE_TOOL_MAP !! tc_name tc = Some t ∧
         invoke t (tc_args tc) (invoking tc st) = (Normal rawResult, st') ∧
         result_string rawResult = Some resultStr ∧
         JSON_parse resultStr = Normal parsed ∧
         parsed ≠ VNull ∧ parsed ≠ VUndefined).
Proof.
  unfold executeToolCall. unfold_M.
  destruct (FINANCE_TOOL_MAP !! tc_name tc) as [t|] eqn:Ht.
  2: { do 2 eexists. split; [reflexivity |]. cbn [error].
       split; [intros [=] | intros (? & ? & ? & ? & ? & _); simplify_eq; congruence]. }
  destruct (invoke t (tc_args tc) (invoking tc st)) as [[raw|e] st1] eqn:Hinv.
  2: { do 2 eexists. split; [reflexivity |]. cbn [error].
       split; [intros [=] | intros (? & ? & ? & ? & ? & ? & _); simplify_eq; congruence]. }
  destruct (result_string raw) as [s|] eqn:Hs.
  2: { do 2 eexists. split; [reflexivity |]. cbn [error].
       split; [intros [=] | intros (? & ? & ? & ? & ? & ? & ? & _); simplify_eq; congruence]. }
  destruct (JSON_parse s) as [parsed|e] eqn:Hp.
  2: { do 2 eexists. split; [reflexivity |]. cbn [error].
       split; [intros [=] | intros (? & ? & ? & ? & ? & ? & ? & ? & _); simplify_eq; congruence]. }
  destruct parsed; cbn [get_property];
    (do 2 eexists; split; [reflexivity |]); cbn [error].
  1,2: split; [intros [=] |
               intros (? & ? & ? & ? & ? & ? & ? & ? & ? & ?); simplify_eq; congruence].
  all: split; [intros _ | done]; by eexists _, _, _, _.
Qed.

(** X13. An adapter whose output parses to something that is no envelope
    (a boolean, a number, a string, an array) still counts as a success: the
    result has no error, [undefined] as data and no URLs. *)
Theorem non_envelope_is_success (tc : ToolCall) (t : Tool W) (st st1 : State W)
    (rawResult : value) (resultStr : string) (parsed : value) :
  FINANCE_TOOL_MAP !! tc_name tc = Some t →
  invoke t (tc_args tc) (invoking tc st) = (Normal rawResult, st1) →
  result_string rawResult = Some resultStr →
  JSON_parse resultStr = Normal parsed →
  not_an_envelope parsed →
  executeToolCall tc st =
    (Normal (mkExecutionResult (tc_name tc) (tc_args tc) VUndefined (VArr []) None), st1).
Proof.
  intros Ht Hinv Hs Hp Hne. unfold executeToolCall. unfold_M.
  rewrite Ht, Hinv, Hs, Hp. by destruct parsed.
Qed.


(** X15. Adapter output that does not parse, or parses to [null], is the
    call's own error: the message of the [SyntaxError], or of the
    [TypeError] of reading [data] of [null]; the effects of the adapter
    stay. *)
Theorem malformed_output_isolated (tc : ToolCall) (t : Tool W) (st st1 : State W)
    (rawResult : value) (resultStr : string) (e : thrown) :
  FINANCE_TOOL_MAP !! tc_name tc = Some t →
  invoke t (tc_args tc) (invoking tc st) = (Normal rawResult, st1) →
  result_string rawResult = Some resultStr →
  JSON_parse resultStr = Throw e ∨
    (JSON_parse resultStr = Normal VNull ∧ e = TypeError_read "null" "data") →
  executeToolCall tc st = (Normal (failure tc (error_message e)), st1).
Proof.
  intros Ht Hinv Hs Hp. unfold executeToolCall. unfold_M.
  rewrite Ht, Hinv, Hs. by destruct Hp as [-> | [-> ->]].
Qed.

(** X16. In a batch every call with a registered name is invoked exactly
    once, with its arguments, in the order of the batch; a call with an
    unknown name is never invoked; and the batch never calls the language
    model. *)
Theorem executor_invokes_registered_once (toolCalls : list ToolCall) (st : State W) :
  ∃ (results : list ExecutionResult) (st' : State W) (evs : list Event),
    executeToolCalls toolCalls st = (Normal results, st') ∧
    trace st' = trace st ++ evs ∧
    invocations evs =
      map (fun tc => (tc_name tc, tc_args tc))
          (filter (fun tc => is_Some (FINANCE_TOOL_MAP !! tc_name tc)) toolCalls) ∧
    Forall no_llm evs.
Proof.
  revert st. induction toolCalls as [|tc tcs IH]; intros st.
  - exists [], st, []. split_and!; try done. by rewrite app_nil_r.
  - destruct (executeToolCall_returns tc st) as (r & st1 & Hr & _).
    destruct (executeToolCall_trace tc st) as (evs1 & Ht1 & Hi1 & Hl1).
    rewrite Hr in Ht1. cbn [snd] in Ht1.
    destruct (IH st1) as (rs & st2 & evs2 & Hrs & Ht2 & Hi2 & Hl2).
    exists (r :: rs), st2, (evs1 ++ evs2). split_and!.
    + by eapply executeToolCalls_cons.
    + by rewrite Ht2, Ht1, app_assoc.
    + unfold invocations in *. rewrite omap_app, Hi1, Hi2, filter_cons.
      by case_decide.
    + by apply Forall_app.
Qed.




(** X18. Invoked without a string [query], the [financial_search] tool
    throws the schema error and leaves the state as it was: the language
    model is not called. *)
Theorem financial_search_rejects (model : string) (args : obj) (st : State W) :
  (∀ q : string, args !! "query" ≠ Some (VStr q)) →
  invoke (createFinancialSearch model) args st =
    (Throw (ToolInputParsingException args), st).
Proof.
  intros Hq. cbn [invoke createFinancialSearch DynamicStructuredTool].
  unfold FinancialSearchInputSchema.
  destruct (args !! "query") as [[]|] eqn:E; try done. by destruct (Hq s).
Qed.

(** X19. When the names of [FINANCE_TOOLS] are pairwise different, the
    registry gives back each tool under its name; in any case a name
    resolves exactly when a tool of the list has it. *)
Theorem registry_round_trip :
  NoDup (map name (FINANCE_TOOLS (W := W))) →
  (∀ t : Tool W, t ∈ FINANCE_TOOLS → FINANCE_TOOL_MAP !! name t = Some t) ∧
  (∀ n : string, is_Some (FINANCE_TOOL_MAP (W := W) !! n) ↔
                 n ∈ map name (FINANCE_TOOLS (W := W))).
Proof.
  intros Hnd. split.
  - intros t Hin. rewrite FINANCE_TOOL_MAP_last.
    by rewrite (filter_same_key name).
  - intros n. rewrite FINANCE_TOOL_MAP_last. split.
    + intros [t Ht]. apply last_Some_elem_of, list_elem_of_filter in Ht as [<- Hin].
      apply list_elem_of_fmap. by exists t.
    + intros (t & -> & Hin)%list_elem_of_fmap.
      rewrite (filter_same_key name) by done. by eexists.
Qed.


End RouterProperties.

(** ** Runs in the simulated environment *)

Module Cases.
(** The simulated environment with a news tool that answers the text [42],
    which parses to a number. *)
Definition numeric_imports : Imports Sim.World := {|
  JSON_parse := Sim.parse;
  JSON_stringify := Sim.stringify;
  ToolInputParsingException := ToolInputParsingException (Imports := Sim.imports);
  formatToolResult := Sim.format;
  getCurrentDate := Sim.today;
  callLlm := fun _ _ w => (Sim.llm_reply w, w);
  callApi := Sim.api;
  getPriceSnapshot := Sim.echo "get_price_snapshot";
  getPrices := Sim.echo "get_prices";
  getCryptoPriceSnapshot := Sim.echo "get_crypto_price_snapshot";
  getCryptoPrices := Sim.echo "get_crypto_prices";
  getCryptoTickers := Sim.unsourced "get_available_crypto_tickers";
  getFinancialMetricsSnapshot := Sim.echo "get_financial_metrics_snapshot";
  getFinancialMetrics := Sim.echo "get_financial_metrics";
  getAnalystEstimates := Sim.echo "get_analyst_estimates";
  getFilings := Sim.echo "get_filings";
  get10KFilingItems := Sim.echo "get_10K_filing_items";
  get10QFilingItems := Sim.echo "get_10Q_filing_items";
  get8KFilingItems := Sim.echo "get_8K_filing_items";
  getNews := mkImportedTool "get_news" (fun _ w => (Normal (VStr "42"), w));
  getInsiderTrades := Sim.echo "get_insider_trades";
  getSegmentedRevenues := Sim.echo "get_segmented_revenues";
  getCompanyFacts := Sim.echo "get_company_facts";
|}.



(** The state after the news tool has been invoked from [Sim.st0]. *)
Definition st_news : State Sim.World :=
  mkState (world Sim.st0) [ EvInvoke "get_news" ∅ ].

(** The arguments of a statements call for AAPL with no period yet. *)
Definition AAPL_args : obj := {[ "ticker" := VStr "AAPL" ]}.

(** A result of [get_price_snapshot] for a ticker argument. *)
Definition snapshot_result (ticker : value) : ExecutionResult :=
  mkExecutionResult "get_price_snapshot" {[ "ticker" := ticker ]} VNull (VArr []) None.

(** Two successful results and a failed one. *)
Definition mixed_results : list ExecutionResult :=
  [ Sim.prices_result (VStr "AAPL"); not_found Sim.weather;
    Sim.prices_result (VStr "TSLA") ].


Definition bad_query_args : obj := {[ "query" := VNum ten ]}.

(** Statement arguments without a ticker. *)
Definition no_ticker_args : obj := {[ "period" := VStr "annual" ]}.

(** A state whose language model selects a statements call and an unknown
    tool. *)
Definition st_selects : State Sim.World :=
  Sim.start (Sim.selects [Sim.income_AAPL; Sim.weather]).
End Cases.


Lemma statement_tool_rejects_witness :
  getAllFinancialStatements ∈ statement_tools (W := Sim.World) ∧
  ¬ valid_statement_args Cases.no_ticker_args ∧
  invoke getAllFinancialStatements Cases.no_ticker_args Sim.st0 =
    (Throw (ToolInputParsingException Cases.no_ticker_args), Sim.st0).
Proof.
  assert (getAllFinancialStatements ∈ statement_tools (W := Sim.World)) as Hin
    by (unfold statement_tools; rewrite !elem_of_cons; auto).
  assert (¬ valid_statement_args Cases.no_ticker_args) as Hbad.
  { intros ([t Ht] & _). unfold Cases.no_ticker_args in Ht.
    rewrite lookup_singleton_ne in Ht by discriminate. discriminate Ht. }
  split; [exact Hin |]. split; [exact Hbad |].
  exact (statement_tool_rejects _ _ Sim.st0 Hin Hbad).
Defined.

Lemma ttm_is_annual_witness :
  getIncomeStatements ∈ statement_tools (W := Sim.World) ∧
  Cases.AAPL_args !! "ticker" = Some (VStr "AAPL") ∧
  limit_ok Cases.AAPL_args ∧
  invoke getIncomeStatements (<["period" := VStr "ttm"]> Cases.AAPL_args) Sim.st0 =
  invoke getIncomeStatements (<["period" := VStr "annual"]> Cases.AAPL_args) Sim.st0.
Proof.
  assert (getIncomeStatements ∈ statement_tools (W := Sim.World)) as Hin
    by apply list_elem_of_here.
  assert (Cases.AAPL_args !! "ticker" = Some (VStr "AAPL")) as Ht
    by (vm_compute; reflexivity).
  assert (limit_ok Cases.AAPL_args) as Hl by (vm_compute; exact I).
  split; [exact Hin |]. split; [exact Ht |]. split; [exact Hl |].
  exact (ttm_is_annual _ _ "AAPL" Sim.st0 Hin Ht Hl).
Defined.

Lemma result_key_distinct_tools_witness :
  args (Sim.prices_result (VStr "AAPL")) !! "ticker" =
    args (Cases.snapshot_result (VStr "AAPL")) !! "ticker" ∧
  tool (Sim.prices_result (VStr "AAPL")) ≠ tool (Cases.snapshot_result (VStr "AAPL")) ∧
  result_key (Sim.prices_result (VStr "AAPL")) ≠
    result_key (Cases.snapshot_result (VStr "AAPL")).
Proof.
  assert (args (Sim.prices_result (VStr "AAPL")) !! "ticker" =
            args (Cases.snapshot_result (VStr "AAPL")) !! "ticker") as Ht
    by reflexivity.
  assert (tool (Sim.prices_result (VStr "AAPL")) ≠
            tool (Cases.snapshot_result (VStr "AAPL"))) as Hne by discriminate.
  split; [exact Ht |]. split; [exact Hne |].
  exact (result_key_distinct_tools _ _ Ht Hne).
Defined.

Lemma combinedData_keys_witness :
  combinedData Cases.mixed_results !! "get_prices_TSLA" = Some (VStr "TSLA") ∧
  ("get_prices_TSLA" = "_errors" ∨
   ∃ r, r ∈ Cases.mixed_results ∧ error r = None ∧
        result_key r = "get_prices_TSLA" ∧ data r = VStr "TSLA").
Proof.
  assert (combinedData Cases.mixed_results !! "get_prices_TSLA" = Some (VStr "TSLA"))
    as Hk by (vm_compute; reflexivity).
  split; [exact Hk |]. exact (combinedData_keys _ _ _ Hk).
Defined.

Lemma distinct_keys_keep_all_witness :
  NoDup (map result_key (successfulResults Cases.mixed_results)) ∧
  combinedData Cases.mixed_results !! result_key (Sim.prices_result (VStr "AAPL")) =
    Some (data (Sim.prices_result (VStr "AAPL"))).
Proof.
  assert (NoDup (map result_key (successfulResults Cases.mixed_results))) as Hnd
    by (apply (bool_decide_unpack _); vm_compute; exact I).
  split; [exact Hnd |].
  apply (distinct_keys_keep_all _ _ Hnd).
  - apply (bool_decide_unpack _). vm_compute. exact I.
  - apply list_elem_of_here.
  - reflexivity.
Defined.

Lemma merge_order_independent_witness :
  Cases.mixed_results ≡ₚ reverse Cases.mixed_results ∧
  combinedData Cases.mixed_results !! "get_prices_AAPL" =
    combinedData (reverse Cases.mixed_results) !! "get_prices_AAPL".
Proof.
  assert (Cases.mixed_results ≡ₚ reverse Cases.mixed_results) as Hperm
    by (symmetry; apply reverse_Permutation).
  split; [exact Hperm |].
  apply (merge_order_independent _ _ _ Hperm).
  - apply (bool_decide_unpack _). vm_compute. exact I.
  - discriminate.
Defined.

Lemma all_failed_only_errors_witness :
  Forall (fun r => error r ≠ None) [not_found Sim.weather; not_found Sim.news] ∧
  combinedData [not_found Sim.weather; not_found Sim.news] =
    {[ "_errors" := VArr (map error_entry [not_found Sim.weather; not_found Sim.news]) ]}.
Proof.
  assert (Forall (fun r => error r ≠ None) [not_found Sim.weather; not_found Sim.news])
    as Hall by (repeat (apply Forall_cons_2; [discriminate |]); apply Forall_nil_2).
  split; [exact Hall |].
  exact (all_failed_only_errors [not_found Sim.weather; not_found Sim.news]
           ltac:(discriminate) Hall).
Defined.

Lemma non_envelope_is_success_witness :
  @FINANCE_TOOL_MAP _ Cases.numeric_imports !! tc_name Sim.news =
    Some (imported (@getNews _ Cases.numeric_imports)) ∧
  @JSON_parse _ Cases.numeric_imports "42" = Normal (VNum (Number true "42")) ∧
  @executeToolCall _ Cases.numeric_imports Sim.news Sim.st0 =
    (Normal (mkExecutionResult "get_news" ∅ VUndefined (VArr []) None), Cases.st_news).
Proof.
  assert (@FINANCE_TOOL_MAP _ Cases.numeric_imports !! tc_name Sim.news =
            Some (imported (@getNews _ Cases.numeric_imports))) as H1
    by (rewrite FINANCE_TOOL_MAP_last; reflexivity).
  assert (@JSON_parse _ Cases.numeric_imports "42" = Normal (VNum (Number true "42")))
    as H4 by (vm_compute; reflexivity).
  split; [exact H1 |]. split; [exact H4 |].
  exact (@non_envelope_is_success _ Cases.numeric_imports Sim.news _ Sim.st0
           Cases.st_news (VStr "42") "42" _ H1
           ltac:(vm_compute; reflexivity) eq_refl H4 I).
Defined.


Lemma malformed_output_isolated_witness :
  JSON_parse "upstream unavailable" =
    Throw (ErrorObject "SyntaxError" "Unexpected token in JSON") ∧
  executeToolCall Sim.news Sim.st0 =
    (Normal (failure Sim.news "Unexpected token in JSON"), Cases.st_news).
Proof.
  assert (FINANCE_TOOL_MAP !! tc_name Sim.news =
            Some (imported (getNews (W := Sim.World)))) as H1
    by (rewrite FINANCE_TOOL_MAP_last; reflexivity).
  assert (JSON_parse "upstream unavailable" =
            Throw (ErrorObject "SyntaxError" "Unexpected token in JSON")) as H4
    by (vm_compute; reflexivity).
  split; [exact H4 |].
  exact (malformed_output_isolated Sim.news _ Sim.st0 Cases.st_news
           (VStr "upstream unavailable") "upstream unavailable" _ H1
           ltac:(vm_compute; reflexivity) eq_refl (or_introl H4)).
Defined.


Lemma financial_search_rejects_witness :
  (∀ q : string, Cases.bad_query_args !! "query" ≠ Some (VStr q)) ∧
  invoke (createFinancialSearch "m") Cases.bad_query_args Cases.st_selects =
    (Throw (ToolInputParsingException Cases.bad_query_args), Cases.st_selects).
Proof.
  assert (∀ q : string, Cases.bad_query_args !! "query" ≠ Some (VStr q)) as Hq.
  { intros q Hq. unfold Cases.bad_query_args in Hq.
    rewrite lookup_singleton_eq in Hq. discriminate Hq. }
  split; [exact Hq |].
  exact (financial_search_rejects "m" Cases.bad_query_args Cases.st_selects Hq).
Defined.

Lemma registry_round_trip_witness :
  NoDup (map name (FINANCE_TOOLS (W := Sim.World))) ∧
  FINANCE_TOOL_MAP !! "get_all_financial_statements" =
    Some (getAllFinancialStatements (W := Sim.World)) ∧
  (is_Some (FINANCE_TOOL_MAP (W := Sim.World) !! "get_weather") ↔
     "get_weather" ∈ map name (FINANCE_TOOLS (W := Sim.World))).
Proof.
  assert (NoDup (map name (FINANCE_TOOLS (W := Sim.World)))) as Hnd
    by (apply (bool_decide_unpack _); vm_compute; exact I).
  split; [exact Hnd |].
  destruct (registry_round_trip Hnd) as [Hget Hiff].
  split; [| exact (Hiff "get_weather")].
  apply (Hget getAllFinancialStatements).
  unfold FINANCE_TOOLS. rewrite !elem_of_cons. auto 10.
Defined.


